(** * User items list and admin check: a shallow embedding

    The development follows two source files of the web application:

    - [apps/web/components/features/user-page/user-items-list.tsx]
      ([transformDemoData], the three per-tab fetcher hooks,
      [filterComponentsBySearch], [UserItemsList]);
    - the admin hook [useIsAdmin].

    Rows that arrive from the backend have the TypeScript type [any]; they
    are modelled as JavaScript values ([JsVal]), and an operation that
    JavaScript refuses on a value throws here too.  A string is its
    sequence of UTF-16 code units.  Numbers are integers.

    Two tables of the JavaScript engine are not part of the program and
    are taken as a parameter ([Engine]): the Unicode lower-casing of
    text outside the alphabet modelled here, and the printing of numbers
    outside the safe integers. *)

From Stdlib Require Import ZArith NArith String Ascii List Lia DecimalString.
From stdpp Require Import base option list strings gmap.

Set Warnings "-register-all".

(** ** JavaScript values *)

(** A string: its UTF-16 code units, each below [2^16]. *)
Definition JsString : Type := list N.

Inductive JsVal : Type :=
  | JUndefined
  | JNull
  | JBool (b : bool)
  | JNum (n : Z)
  | JStr (s : JsString)
  | JArr (elems : list JsVal)
  | JObj (fields : gmap string JsVal).

Inductive JsError : Type :=
  | TypeError
  | URIError
  | Thrown (v : JsVal).

(** A computation that either returns or throws. *)
Inductive Result (A : Type) : Type :=
  | Ok (a : A)
  | Err (e : JsError).
Arguments Ok {A} a.
Arguments Err {A} e.

Definition bindR {A B} (r : Result A) (k : A -> Result B) : Result B :=
  match r with
  | Ok a => k a
  | Err e => Err e
  end.

Notation "'let?' x ':=' r 'in' k" := (bindR r (fun x => k))
  (at level 10, x name, r at level 100, k at level 200).

(** A callback applied to each element in order; the first throw aborts. *)
Section Callbacks.

Context {A B : Type}.
Variable f : A -> Result B.
Variable p : A -> Result bool.

Fixpoint mapR (l : list A) : Result (list B) :=
  match l with
  | [] => Ok []
  | x :: l' =>
      match f x with
      | Err e => Err e
      | Ok y => match mapR l' with
                | Err e => Err e
                | Ok ys => Ok (y :: ys)
                end
      end
  end.

Fixpoint filterR (l : list A) : Result (list A) :=
  match l with
  | [] => Ok []
  | x :: l' =>
      match p x with
      | Err e => Err e
      | Ok b => match filterR l' with
                | Err e => Err e
                | Ok ys => Ok (if b then x :: ys else ys)
                end
      end
  end.

End Callbacks.
Arguments filterR {A} p l.

(** What the program takes from the engine without containing it. *)
Record Engine : Type := MkEngine {
  (** [String.prototype.toLowerCase] on a text with a code unit outside
      the modelled alphabet *)
  unicode_lower : JsString -> JsString;
  (** lower-casing never empties a text *)
  unicode_lower_nonempty : forall s, s <> [] -> unicode_lower s <> [];
  (** the string of a number that is not a safe integer *)
  big_number : Z -> JsString
}.

Module Str.

(** A literal of the program, all ASCII, as a JavaScript string. *)
Definition lit (s : string) : JsString :=
  map N_of_ascii (list_ascii_of_string s).

Definition is_empty (s : JsString) : bool :=
  match s with
  | [] => true
  | _ :: _ => false
  end.

Fixpoint eqb (s t : JsString) : bool :=
  match s, t with
  | [], [] => true
  | c :: s', d :: t' => (c =? d)%N && eqb s' t'
  | _, _ => false
  end.

Definition is_ascii (s : JsString) : bool := forallb (fun c => (c <? 128)%N) s.

(** [A]-[Z] become [a]-[z]. *)
Definition lower_unit (c : N) : N :=
  if ((65 <=? c) && (c <=? 90))%N then (c + 32)%N else c.

(** The Greek sigmas: capital, small, and small final. *)
Definition capital_sigma : N := 931.
Definition small_sigma : N := 963.
Definition final_sigma : N := 962.

(** The alphabet whose lower-casing is written out here: ASCII and the
    three sigmas. *)
Definition modelled (c : N) : bool :=
  ((c <? 128) || (c =? capital_sigma) || (c =? small_sigma) || (c =? final_sigma))%N.

(** Unicode's Cased and Case_Ignorable, on that alphabet. *)
Definition cased (c : N) : bool :=
  (((65 <=? c) && (c <=? 90)) || ((97 <=? c) && (c <=? 122))
   || (c =? capital_sigma) || (c =? small_sigma) || (c =? final_sigma))%N.

Definition case_ignorable (c : N) : bool :=
  ((c =? 39) || (c =? 46) || (c =? 58) || (c =? 94) || (c =? 96))%N.

(** Whether a cased letter follows, case-ignorable units skipped. *)
Fixpoint cased_follows (s : JsString) : bool :=
  match s with
  | [] => false
  | c :: s' =>
      if cased c then true
      else if case_ignorable c then cased_follows s'
      else false
  end.

(** Lower-casing on the modelled alphabet.  [before] tells whether a
    cased letter precedes, case-ignorable units skipped.  A capital
    sigma becomes the final sigma when a cased letter precedes it and
    none follows (Unicode's Final_Sigma), the small sigma otherwise. *)
Fixpoint lower_from (before : bool) (s : JsString) : JsString :=
  match s with
  | [] => []
  | c :: s' =>
      (if (c =? capital_sigma)%N
       then (if before && negb (cased_follows s') then final_sigma else small_sigma)
       else lower_unit c)
      :: lower_from (if cased c then true
                     else if case_ignorable c then before
                     else false) s'
  end.

(** [String.prototype.toLowerCase] *)
Definition toLowerCase (E : Engine) (s : JsString) : JsString :=
  if forallb modelled s then lower_from false s else unicode_lower E s.

Fixpoint starts_with (s q : JsString) {struct q} : bool :=
  match q, s with
  | [], _ => true
  | c :: q', d :: s' => (c =? d)%N && starts_with s' q'
  | _ :: _, [] => false
  end.

(** [String.prototype.includes]: some suffix of [s] starts with [q]. *)
Fixpoint includes (s q : JsString) : bool :=
  starts_with s q ||
  match s with
  | [] => false
  | _ :: s' => includes s' q
  end.

(** Decimal digits, for property names and for numbers. *)
Definition decimal (n : Z) : string := NilZero.string_of_int (Z.to_int n).
Definition key_of_nat (n : nat) : string := decimal (Z.of_nat n).

(** The string of a number: decimal digits for a safe integer. *)
Definition of_number (E : Engine) (n : Z) : JsString :=
  if (Z.abs n <? 2 ^ 53)%Z then lit (decimal n) else big_number E n.

Fixpoint join (sep : JsString) (l : list JsString) : JsString :=
  match l with
  | [] => []
  | [s] => s
  | s :: l' => s ++ sep ++ join sep l'
  end.

Definition hex_digit (n : N) : N :=
  if (n <? 10)%N then (48 + n)%N else (55 + n)%N.

(** Characters that [encodeURIComponent] leaves as they are:
    letters, digits and [- _ . ! ~ * ' ( )]. *)
Definition uri_unreserved (c : N) : bool :=
  (((65 <=? c) && (c <=? 90)) || ((97 <=? c) && (c <=? 122))
   || ((48 <=? c) && (c <=? 57))
   || (c =? 45) || (c =? 95) || (c =? 46) || (c =? 33)
   || (c =? 126) || (c =? 42) || (c =? 39) || (c =? 40)
   || (c =? 41))%N.

Definition high_surrogate (c : N) : bool := ((55296 <=? c) && (c <=? 56319))%N.
Definition low_surrogate (c : N) : bool := ((56320 <=? c) && (c <=? 57343))%N.

(** The code point of a surrogate pair. *)
Definition pair_code_point (hi lo : N) : N :=
  ((hi - 55296) * 1024 + (lo - 56320) + 65536)%N.

(** The octets of a code point in UTF-8. *)
Definition utf8 (v : N) : list N :=
  (if v <? 128 then [v]
   else if v <? 2048 then [192 + v / 64; 128 + v mod 64]
   else if v <? 65536 then [224 + v / 4096; 128 + (v / 64) mod 64; 128 + v mod 64]
   else [240 + (v / 262144) mod 8; 128 + (v / 4096) mod 64;
         128 + (v / 64) mod 64; 128 + v mod 64])%N.

(** [%XX] for an octet. *)
Definition percent (b : N) : JsString :=
  [37%N; hex_digit ((b / 16) mod 16)%N; hex_digit (b mod 16)%N].

Definition escape (v : N) : JsString := flat_map percent (utf8 v).

(** [encodeURIComponent]: an unreserved unit stays; any other code
    point becomes the escapes of its UTF-8 octets; a surrogate without
    its partner throws [URIError]. *)
Fixpoint encodeURIComponent (s : JsString) : Result JsString :=
  match s with
  | [] => Ok []
  | c :: s' =>
      if uri_unreserved c then
        match encodeURIComponent s' with
        | Ok r => Ok (c :: r)
        | Err e => Err e
        end
      else if low_surrogate c then Err URIError
      else if high_surrogate c then
        match s' with
        | d :: s'' =>
            if low_surrogate d then
              match encodeURIComponent s'' with
              | Ok r => Ok (escape (pair_code_point c d) ++ r)
              | Err e => Err e
              end
            else Err URIError
        | [] => Err URIError
        end
      else
        match encodeURIComponent s' with
        | Ok r => Ok (escape c ++ r)
        | Err e => Err e
        end
  end.

End Str.

(** ** JavaScript operators used by the source *)

Module Js.

(** Truthiness, as tested by [!v], [v || w], [if (v)]. *)
Definition truthy (v : JsVal) : bool :=
  match v with
  | JUndefined | JNull => false
  | JBool b => b
  | JNum n => negb (n =? 0)%Z
  | JStr s => negb (Str.is_empty s)
  | JArr _ | JObj _ => true
  end.

Definition nullish (v : JsVal) : bool :=
  match v with
  | JUndefined | JNull => true
  | _ => false
  end.

(** [a || b] *)
Definition or (a b : JsVal) : JsVal := if truthy a then a else b.

(** [a ?? b] *)
Definition coalesce (a b : JsVal) : JsVal := if nullish a then b else a.

(** [a === s] against a string [s]: no conversion takes place. *)
Definition strict_eq_str (a : JsVal) (s : JsString) : bool :=
  match a with
  | JStr t => Str.eqb t s
  | _ => false
  end.

(** The indexed own properties of an array or of a string:
    ["0"], ["1"], ... *)
Definition indexed (l : list JsVal) : gmap string JsVal :=
  list_to_map (imap (fun i v => (Str.key_of_nat i, v)) l).

Definition chars (s : JsString) : list JsVal :=
  map (fun c => JStr [c]) s.

(** The value of property [k] of a value that is neither [null] nor
    [undefined], for the names the program reads: none of them is
    inherited from a prototype, so only own properties count. *)
Definition prop (v : JsVal) (k : string) : JsVal :=
  match v with
  | JObj m => default JUndefined (m !! k)
  | JArr l =>
      if String.eqb k "length" then JNum (Z.of_nat (length l))
      else default JUndefined (indexed l !! k)
  | JStr s =>
      if String.eqb k "length" then JNum (Z.of_nat (length s))
      else default JUndefined (indexed (chars s) !! k)
  | _ => JUndefined
  end.

(** [v.k]: reading a property of [null] or [undefined] throws. *)
Definition member (v : JsVal) (k : string) : Result JsVal :=
  if nullish v then Err TypeError else Ok (prop v k).

(** [v?.k] *)
Definition opt_member (v : JsVal) (k : string) : JsVal :=
  if nullish v then JUndefined else prop v k.

(** Conversion to a string, as in a template literal and in
    [Array.prototype.join].  An object is converted through its
    [toString]: the inherited one gives ["[object Object]"]; an own
    property of that name is data, not a function, and then neither it
    nor the inherited [valueOf] yields a primitive, so the conversion
    throws.  An array joins the conversions of its elements, [null] and
    [undefined] giving the empty string. *)
Fixpoint to_string (E : Engine) (v : JsVal) : Result JsString :=
  match v with
  | JUndefined => Ok (Str.lit "undefined")
  | JNull => Ok (Str.lit "null")
  | JBool true => Ok (Str.lit "true")
  | JBool false => Ok (Str.lit "false")
  | JNum n => Ok (Str.of_number E n)
  | JStr s => Ok s
  | JArr l =>
      match mapR (fun x => if nullish x then Ok [] else to_string E x) l with
      | Err e => Err e
      | Ok parts => Ok (Str.join [44%N] parts)
      end
  | JObj m =>
      match m !! "toString" with
      | Some _ => Err TypeError
      | None => Ok (Str.lit "[object Object]")
      end
  end.

(** [v.toString()]: on [null] and [undefined] the property read
    throws; on an object with an own [toString] the call does, since
    the property is not a function; otherwise the method converts as
    above. *)
Definition toString (E : Engine) (v : JsVal) : Result JsString :=
  if nullish v then Err TypeError else to_string E v.

(** The properties copied by [{...v}]. *)
Definition spread (v : JsVal) : gmap string JsVal :=
  match v with
  | JObj m => m
  | JArr l => indexed l
  | JStr s => indexed (chars s)
  | _ => ∅
  end.

End Js.

(** ** Collections with identity

    An array of items is a heap object: two arrays with equal contents
    may still be different objects.  The program never writes to an
    array after creating it, so an array carries its contents, and the
    heap is the number of arrays created so far, which is also the
    reference of the next one.  Only the item collections are tracked
    this way; arrays inside backend rows are plain values ([JArr]). *)

Record JsArray (A : Type) : Type := MkArray { aref : nat; aitems : list A }.
Arguments MkArray {A} aref aitems.
Arguments aref {A} _.
Arguments aitems {A} _.

Definition Heap : Type := nat.

(** Synchronous code: may create arrays, may throw. *)
Definition M (A : Type) : Type := Heap -> Result (A * Heap).

Definition ret {A} (a : A) : M A := fun h => Ok (a, h).
Definition throw {A} (e : JsError) : M A := fun _ => Err e.
Definition bind {A B} (m : M A) (k : A -> M B) : M B :=
  fun h => match m h with
           | Ok (a, h') => k a h'
           | Err e => Err e
           end.
Definition lift {A} (r : Result A) : M A :=
  fun h => match r with
           | Ok a => Ok (a, h)
           | Err e => Err e
           end.
(** A new array with the given contents. *)
Definition alloc {A} (l : list A) : M (JsArray A) :=
  fun h => Ok (MkArray h l, S h).

Notation "'let*' x ':=' m 'in' k" := (bind m (fun x => k))
  (at level 10, x name, m at level 100, k at level 200).

(** [arr.filter(p)] *)
Definition array_filter {A} (p : A -> Result bool) (a : JsArray A) : M (JsArray A) :=
  let* l := lift (filterR p (aitems a)) in alloc l.

(** [data.map(f)] on a backend value: only an array has [map]. *)
Definition data_map {B} (f : JsVal -> Result B) (data : JsVal) : M (JsArray B) :=
  match data with
  | JArr l => let* ys := lift (mapR f l) in alloc ys
  | _ => throw TypeError
  end.

(** ** Asynchronous code and the backend client

    An [async] function is a tree: it awaits a request, continues with
    the response, and ends in synchronous code.  An awaited request that
    rejects makes the whole function reject (no source function catches). *)

Inductive Request : Type :=
  | Rpc (fn : string) (args : gmap string JsVal)
  | SelectSingle (table columns : string) (eq_column : string) (eq_value : JsVal).

Record Response : Type := MkResponse { resp_data : JsVal; resp_error : JsVal }.

Inductive Async (A : Type) : Type :=
  | Done (m : M A)
  | Await (r : Request) (k : Response -> Async A).
Arguments Done {A} m.
Arguments Await {A} r k.

Definition Backend : Type := Request -> Result Response.

(** Runs an async function: the requests sent, in order, and the outcome. *)
Fixpoint run {A} (b : Backend) (a : Async A) (h : Heap)
  : list Request * Result (A * Heap) :=
  match a with
  | Done m => ([], m h)
  | Await r k =>
      match b r with
      | Ok resp => let '(t, o) := run b (k resp) h in (r :: t, o)
      | Err e => ([r], Err e)
      end
  end.

(** ** The data-fetching library ([useQuery])

    What the hooks rely on: a query whose [enabled] option is false is
    never fetched; [enabled] left out means true; a query has no data
    until its function has fulfilled, and none after it rejected.  One
    attempt per fetch is modelled. *)

Record QueryOptions (A : Type) : Type := MkQuery {
  queryKey : list JsVal;
  queryFn : Async A;
  enabled : option bool;
  staleTime : option Z
}.
Arguments MkQuery {A}.
Arguments queryKey {A} _.
Arguments queryFn {A} _.
Arguments enabled {A} _.
Arguments staleTime {A} _.

Inductive QueryState (A : Type) : Type :=
  | Pending
  | Success (a : A)
  | Failed (e : JsError).
Arguments Pending {A}.
Arguments Success {A} a.
Arguments Failed {A} e.

Definition is_enabled {A} (o : QueryOptions A) : bool := default true (enabled o).

(** Mounting a query with an empty cache: the requests sent, the state
    once the fetch has settled, and the heap. *)
Definition mount {A} (b : Backend) (o : QueryOptions A) (h : Heap)
  : list Request * QueryState A * Heap :=
  if is_enabled o then
    match run b (queryFn o) h with
    | (t, Ok (a, h')) => (t, Success a, h')
    | (t, Err e) => (t, Failed e, h)
    end
  else ([], Pending, h).

Definition requests_on_mount {A} (b : Backend) (o : QueryOptions A) (h : Heap)
  : list Request := fst (fst (mount b o h)).
Definition settled_state {A} (b : Backend) (o : QueryOptions A) (h : Heap)
  : QueryState A := snd (fst (mount b o h)).

(** The [data] field of a query result; [None] is [undefined]. *)
Definition data_of {A} (st : QueryState A) : option A :=
  match st with
  | Success a => Some a
  | Pending | Failed _ => None
  end.

(** What a component reads from [useQuery]. *)
Record QueryResult (A : Type) : Type := MkResult { data : option A; isLoading : bool }.
Arguments MkResult {A} data isLoading.
Arguments data {A} _.
Arguments isLoading {A} _.


(** ** The list of a user's items ([user-items-list.tsx]) *)

Inductive UserTab : Type := tab_components | tab_demos | tab_bookmarks.

Record UserItemsListProps : Type := MkProps {
  className : option string;
  skeletonCount : option nat;
  userId : JsString;
  tab : UserTab
}.

(** The normalised item.  Its fields are filled from an [any] row
    without a check, so they hold JavaScript values; [id] is the result
    of [toString] and [tags] an array literal. *)
Module Demo.
Record DemoWithComponent : Type := Make {
  id : JsString;
  name : JsVal;
  demo_slug : JsVal;
  preview_url : JsVal;
  video_url : JsVal;
  updated_at : JsVal;
  created_at : JsVal;
  user : JsVal;
  user_id : JsVal;
  component_id : JsVal;
  demo_code : JsVal;
  demo_dependencies : JsVal;
  demo_direct_registry_dependencies : JsVal;
  compiled_css : JsVal;
  component : JsVal;
  tags : list JsVal;
  embedding : JsVal;
  embedding_oai : JsVal;
  fts : JsVal;
  pro_preview_image_url : JsVal;
  view_count : JsVal
}.
End Demo.
Abbreviation DemoWithComponent := Demo.DemoWithComponent.

(** What the handlers do to the page. *)
Inductive Effect : Type :=
  | PreventDefault
  | RouterPush (path : JsString).

(** The two ways to start the global search: the button of the
    no-results panel and the [mod+enter] hotkey. *)
Inductive Trigger : Type := SearchEverywhereClick | ModEnter.

(** The rendered tree, as far as the claims look at it. *)
Record Card : Type := MkCard { key : JsString; demo : DemoWithComponent }.

Inductive GridChildren : Type :=
  | Skeletons (count : nat)
  | NoResults (searchQuery : JsString)
  | Cards (cards : list Card).

Inductive Element : Type :=
  | EmptyLikedState
  | Grid (className : option string) (children : GridChildren).

Definition rpc_args (userId : JsString) : gmap string JsVal :=
  {[ "p_user_id" := JStr userId; "p_include_private" := JBool false ]}.

(** [demo.component?.user?.id] *)
Definition component_creator_id (demo : DemoWithComponent) : JsVal :=
  Js.opt_member (Js.opt_member (Demo.component demo) "user") "id".

(** [demo.user?.id] *)
Definition demo_author_id (demo : DemoWithComponent) : JsVal :=
  Js.opt_member (Demo.user demo) "id".

(** [value || []] for a value that is an array or [undefined]. *)
Definition or_empty {A} (v : option (JsArray A)) : M (JsArray A) :=
  match v with
  | Some a => ret a
  | None => alloc []
  end.

(** A handler's run: the effects it had, and the error it threw, if
    any. *)
Definition Run : Type := (list Effect * option JsError)%type.

(** [handleGlobalSearch]: nothing on an empty search text; otherwise
    the route is pushed, unless [encodeURIComponent] throws. *)
Definition handleGlobalSearch (searchQuery : JsString) : Run :=
  if Str.is_empty searchQuery then ([], None)
  else
    match Str.encodeURIComponent searchQuery with
    | Ok encoded => ([RouterPush (Str.lit "/q/" ++ encoded)], None)
    | Err e => ([], Some e)
    end.

(** The button calls [handleGlobalSearch]; the hotkey callback calls
    [e.preventDefault()] first. *)
Definition on_trigger (t : Trigger) (searchQuery : JsString) : Run :=
  match t with
  | SearchEverywhereClick => handleGlobalSearch searchQuery
  | ModEnter =>
      (PreventDefault :: fst (handleGlobalSearch searchQuery),
       snd (handleGlobalSearch searchQuery))
  end.

Definition navigations (l : list Effect) : list JsString :=
  omap (fun e => match e with RouterPush p => Some p | PreventDefault => None end) l.

(** ** The admin check ([useIsAdmin])

    [user] is what the authentication provider reports: [null] or
    [undefined] when nobody is signed in, an object with an [id]
    otherwise. *)

Definition useIsAdmin_query (user : JsVal) : QueryOptions JsVal :=
  {| queryKey := [JStr (Str.lit "user"); Js.opt_member user "id"; JStr (Str.lit "isAdmin")];
     queryFn :=
       if negb (Js.truthy (Js.opt_member user "id")) then Done (ret (JBool false))
       else
         Await (SelectSingle "users" "is_admin" "id" (Js.opt_member user "id")) (fun r =>
           Done (ret (Js.coalesce (Js.opt_member (resp_data r) "is_admin") (JBool false))));
     enabled := Some (Js.truthy (Js.opt_member user "id"));
     staleTime := None |}.

(** The hook's return value, given the state of its query:
    [const { data: isCurrentUserAdmin = false } = useQuery(...)]. *)
Definition useIsAdmin (st : QueryState JsVal) : JsVal :=
  match data_of st with
  | None | Some JUndefined => JBool false
  | Some v => v
  end.

(** The single-row lookup of [useIsAdmin]. *)
Definition admin_lookup (user : JsVal) : Request :=
  SelectSingle "users" "is_admin" "id" (Js.opt_member user "id").

Section Program.

Variable E : Engine.

(** The fields of the object literal, in the order of the source.
    [data.component_data] is read once here and again for each field in
    the source; the reads are pure. *)
Definition transformDemoData (data : JsVal) : Result DemoWithComponent :=
  let? data_id := Js.member data "id" in
  let? id := Js.toString E data_id in
  let? name := Js.member data "name" in
  let? demo_slug := Js.member data "demo_slug" in
  let? preview_url := Js.member data "preview_url" in
  let? video_url := Js.member data "video_url" in
  let? updated_at := Js.member data "updated_at" in
  let? created_at := Js.member data "created_at" in
  let? user := Js.member data "user_data" in
  let? user_data := Js.member data "user_data" in
  let user_id := Js.opt_member user_data "id" in
  let? component_data := Js.member data "component_data" in
  let component_id := Js.opt_member component_data "id" in
  let demo_code := Js.or (Js.opt_member component_data "demo_code") (JStr []) in
  let demo_dependencies := Js.or (Js.opt_member component_data "dependencies") (JObj ∅) in
  let compiled_css := Js.opt_member component_data "compiled_css" in
  let? component_user_data := Js.member data "component_user_data" in
  let component := JObj (<["user" := component_user_data]> (Js.spread component_data)) in
  let? view_count0 := Js.member data "view_count" in
  Ok {| Demo.id := id;
        Demo.name := name;
        Demo.demo_slug := demo_slug;
        Demo.preview_url := preview_url;
        Demo.video_url := video_url;
        Demo.updated_at := updated_at;
        Demo.created_at := created_at;
        Demo.user := user;
        Demo.user_id := user_id;
        Demo.component_id := component_id;
        Demo.demo_code := demo_code;
        Demo.demo_dependencies := demo_dependencies;
        Demo.demo_direct_registry_dependencies := JObj ∅;
        Demo.compiled_css := compiled_css;
        Demo.component := component;
        Demo.tags := [];
        Demo.embedding := JNull;
        Demo.embedding_oai := JNull;
        Demo.fts := JNull;
        Demo.pro_preview_image_url := JNull;
        Demo.view_count := Js.or view_count0 (JNum 0) |}.

Definition useUserPublishedDemos (userId : JsString)
  : QueryOptions (JsArray DemoWithComponent) :=
  {| queryKey := [JStr (Str.lit "user-published-demos"); JStr userId];
     queryFn :=
       Await (Rpc "get_user_profile_demos" (rpc_args userId)) (fun r =>
         Done (if Js.truthy (resp_error r) then throw (Thrown (resp_error r))
               else data_map transformDemoData (resp_data r)));
     enabled := None;
     staleTime := Some (30 * 1000)%Z |}.

Definition useUserLikedComponents (userId : JsString)
  : QueryOptions (JsArray DemoWithComponent) :=
  {| queryKey := [JStr (Str.lit "user-liked-components"); JStr userId];
     queryFn :=
       Await (Rpc "get_user_liked_components" (rpc_args userId)) (fun r =>
         Done (if Js.truthy (resp_error r) then throw (Thrown (resp_error r))
               else data_map transformDemoData (resp_data r)));
     enabled := None;
     staleTime := Some (30 * 1000)%Z |}.

Definition useUserDemos (userId : JsString)
  : QueryOptions (JsArray DemoWithComponent) :=
  {| queryKey := [JStr (Str.lit "user-demos"); JStr userId];
     queryFn :=
       Await (Rpc "get_user_profile_demos" (rpc_args userId)) (fun r =>
         Done (if Js.truthy (resp_error r) then throw (Thrown (resp_error r))
               else data_map transformDemoData (resp_data r)));
     enabled := None;
     staleTime := Some (30 * 1000)%Z |}.

(** [field?.toLowerCase().includes(query)] as a condition: a missing
    field does not match; a field that is not a string has no
    [toLowerCase]. *)
Definition lower_includes (field : JsVal) (query : JsString) : Result bool :=
  match field with
  | JUndefined | JNull => Ok false
  | JStr s => Ok (Str.includes (Str.toLowerCase E s) query)
  | _ => Err TypeError
  end.

(** The callback of the search filter. *)
Definition search_callback (query : JsString) (component : DemoWithComponent)
  : Result bool :=
  let? m1 := lower_includes (Demo.name component) query in
  if m1 then Ok true else
  let? m2 := lower_includes (Js.opt_member (Demo.component component) "name") query in
  if m2 then Ok true else
  let? m3 := lower_includes (Js.opt_member (Demo.user component) "name") query in
  if m3 then Ok true else
  let? m4 := lower_includes (Demo.preview_url component) query in
  if m4 then Ok true else Ok false.

Definition filterComponentsBySearch
    (components : option (JsArray DemoWithComponent)) (searchQuery : JsString)
  : M (option (JsArray DemoWithComponent)) :=
  match components with
  | None => ret components
  | Some cs =>
      if Str.is_empty searchQuery then ret components
      else
        let query := Str.toLowerCase E searchQuery in
        let* r := array_filter (search_callback query) cs in
        ret (Some r)
  end.

Section UserItemsList.

Variable props : UserItemsListProps.
Variable searchQuery : JsString.
Variables publishedQuery likedQuery demosQuery
  : QueryResult (JsArray DemoWithComponent).

(** The [switch] on the tab inside the [components] memo. *)
Definition tab_data : option (JsArray DemoWithComponent) :=
  match tab props with
  | tab_components => data publishedQuery
  | tab_demos => data demosQuery
  | tab_bookmarks => data likedQuery
  end.

(** The first half of the memo: the tab's data, filtered by the search. *)
Definition search_filtered : M (JsArray DemoWithComponent) :=
  let* allDemos := or_empty tab_data in
  let* found := filterComponentsBySearch (Some allDemos) searchQuery in
  or_empty found.

(** The second half: the filter on ownership. *)
Definition ownership_filter (filtered : JsArray DemoWithComponent)
  : M (JsArray DemoWithComponent) :=
  match tab props with
  | tab_components =>
      array_filter (fun demo =>
        Ok (Js.strict_eq_str (component_creator_id demo) (userId props))) filtered
  | tab_demos =>
      array_filter (fun demo =>
        Ok (Js.strict_eq_str (demo_author_id demo) (userId props)
            && negb (Js.strict_eq_str (component_creator_id demo) (userId props)))) filtered
  | tab_bookmarks => ret filtered
  end.

Definition components : M (JsArray DemoWithComponent) :=
  let* filtered := search_filtered in
  ownership_filter filtered.

Definition isLoading_memo : bool :=
  match tab props with
  | tab_components => isLoading publishedQuery
  | tab_demos => isLoading demosQuery
  | tab_bookmarks => isLoading likedQuery
  end.

Definition no_length (cs : JsArray DemoWithComponent) : bool :=
  (length (aitems cs) =? 0)%nat.

Definition showSkeleton (cs : JsArray DemoWithComponent) : bool :=
  isLoading_memo || (no_length cs && Str.is_empty searchQuery).

Definition showEmptyState (cs : JsArray DemoWithComponent) : bool :=
  negb isLoading_memo && no_length cs && negb (Str.is_empty searchQuery).

End UserItemsList.

(** A card and its key, the template literal
    [`${component.id}-${component.updated_at}`]. *)
Definition card_of (component : DemoWithComponent) : Result Card :=
  let? updated := Js.to_string E (Demo.updated_at component) in
  Ok {| key := Demo.id component ++ Str.lit "-" ++ updated;
        demo := component |}.

(** The component: the early return for the bookmarks tab, then the
    grid with its three-way choice; only the chosen branch is built. *)
Definition UserItemsList (props : UserItemsListProps) (searchQuery : JsString)
    (publishedQuery likedQuery demosQuery : QueryResult (JsArray DemoWithComponent))
  : M Element :=
  let* cs := components props searchQuery publishedQuery likedQuery demosQuery in
  let isLoading := isLoading_memo props publishedQuery likedQuery demosQuery in
  if match tab props with tab_bookmarks => true | _ => false end
     && negb isLoading && (length (aitems cs) =? 0)%nat && Str.is_empty searchQuery
  then ret EmptyLikedState
  else if showSkeleton props searchQuery publishedQuery likedQuery demosQuery cs
  then ret (Grid (className props) (Skeletons (default 12%nat (skeletonCount props))))
  else if showEmptyState props searchQuery publishedQuery likedQuery demosQuery cs
  then ret (Grid (className props) (NoResults searchQuery))
  else
    let* cards := lift (mapR card_of (aitems cs)) in
    ret (Grid (className props) (Cards cards)).

(** The three hook calls of [UserItemsList], in the order of the source. *)
Definition publishedQuery_options (props : UserItemsListProps) :=
  useUserPublishedDemos
    (match tab props with tab_components => userId props | _ => [] end).
Definition likedQuery_options (props : UserItemsListProps) :=
  useUserLikedComponents
    (match tab props with tab_bookmarks => userId props | _ => [] end).
Definition demosQuery_options (props : UserItemsListProps) :=
  useUserDemos
    (match tab props with tab_demos => userId props | _ => [] end).

Definition tab_queries (props : UserItemsListProps)
  : list (QueryOptions (JsArray DemoWithComponent)) :=
  [publishedQuery_options props; likedQuery_options props; demosQuery_options props].

(** ** What the specification says of the search filter *)

(** The test the code makes, read on the texts: the lower-cased text
    contains the lower-cased query. *)
Definition lowered_contains (text query : JsString) : Prop :=
  exists pre post : JsString,
    Str.toLowerCase E text = pre ++ Str.toLowerCase E query ++ post.

Definition field_contains (field : JsVal) (query : JsString) : Prop :=
  exists s : JsString, field = JStr s /\ lowered_contains s query.

(** The four fields the specification names: the item's name, the
    associated component's name, the owning user's name, the preview URL. *)
Definition SearchMatch (query : JsString) (d : DemoWithComponent) : Prop :=
  field_contains (Demo.name d) query \/
  field_contains (Js.opt_member (Demo.component d) "name") query \/
  field_contains (Js.opt_member (Demo.user d) "name") query \/
  field_contains (Demo.preview_url d) query.

Definition field_contains_b (field : JsVal) (query : JsString) : bool :=
  match field with
  | JStr s => Str.includes (Str.toLowerCase E s) (Str.toLowerCase E query)
  | _ => false
  end.

Definition search_match_b (query : JsString) (d : DemoWithComponent) : bool :=
  field_contains_b (Demo.name d) query
  || field_contains_b (Js.opt_member (Demo.component d) "name") query
  || field_contains_b (Js.opt_member (Demo.user d) "name") query
  || field_contains_b (Demo.preview_url d) query.

(** "contains the query as a case-insensitive substring", said without
    any lower-casing: two code units are the same up to case when they
    are equal or are the capital and the small form of one of the
    letters A to Z; a text contains the query when one of its substrings
    matches it unit by unit. *)
Definition same_letter (c d : N) : Prop :=
  c = d \/
  ((65 <= c)%N /\ (c <= 90)%N /\ d = (c + 32)%N) \/
  ((65 <= d)%N /\ (d <= 90)%N /\ c = (d + 32)%N).

Definition contains_ignoring_case (text query : JsString) : Prop :=
  exists pre mid post : JsString,
    text = pre ++ mid ++ post /\ Forall2 same_letter mid query.

Definition field_contains_ignoring_case (field : JsVal) (query : JsString) : Prop :=
  exists s : JsString, field = JStr s /\ contains_ignoring_case s query.

Definition SearchMatchIgnoringCase (query : JsString) (d : DemoWithComponent) : Prop :=
  field_contains_ignoring_case (Demo.name d) query \/
  field_contains_ignoring_case (Js.opt_member (Demo.component d) "name") query \/
  field_contains_ignoring_case (Js.opt_member (Demo.user d) "name") query \/
  field_contains_ignoring_case (Demo.preview_url d) query.

(** The claim on non-empty queries, as it is worded: the result holds
    exactly the items with a field containing the query up to case. *)
Definition search_as_claimed (query : JsString)
    (input result : list DemoWithComponent) : Prop :=
  forall d, In d result <-> In d input /\ SearchMatchIgnoringCase query d.

(** The declared type of the searched fields: a string, or absent. *)
Definition is_text (v : JsVal) : bool :=
  match v with
  | JUndefined | JNull | JStr _ => true
  | _ => false
  end.

Definition text_fields_typed (d : DemoWithComponent) : bool :=
  is_text (Demo.name d)
  && is_text (Js.opt_member (Demo.component d) "name")
  && is_text (Js.opt_member (Demo.user d) "name")
  && is_text (Demo.preview_url d).

(** Searched fields that, when they are strings, are ASCII. *)
Definition ascii_text (v : JsVal) : bool :=
  match v with
  | JStr s => Str.is_ascii s
  | _ => true
  end.

Definition ascii_fields (d : DemoWithComponent) : bool :=
  ascii_text (Demo.name d)
  && ascii_text (Js.opt_member (Demo.component d) "name")
  && ascii_text (Js.opt_member (Demo.user d) "name")
  && ascii_text (Demo.preview_url d).

(** ** Values that convert to a string *)

(** No object with an own [toString] is reached by the conversion. *)
Fixpoint printable (v : JsVal) : bool :=
  match v with
  | JObj m =>
      match m !! "toString" with
      | Some _ => false
      | None => true
      end
  | JArr l => forallb (fun x => Js.nullish x || printable x) l
  | _ => true
  end.

(** An item whose [updated_at], a string by its declared type, can go
    into the card's key. *)
Definition key_printable (d : DemoWithComponent) : bool :=
  printable (Demo.updated_at d).

(** A row [transformDemoData] accepts: the row and its [id] are
    neither [null] nor [undefined], and the [id] converts. *)
Definition row_id_converts (row : JsVal) : bool :=
  negb (Js.nullish row) && negb (Js.nullish (Js.prop row "id"))
  && printable (Js.prop row "id").

(** Surrogates come in pairs, high then low. *)
Fixpoint well_formed (s : JsString) : bool :=
  match s with
  | [] => true
  | c :: s' =>
      if Str.low_surrogate c then false
      else if Str.high_surrogate c then
        match s' with
        | d :: s'' => Str.low_surrogate d && well_formed s''
        | [] => false
        end
      else well_formed s'
  end.

Definition no_surrogate (c : N) : bool :=
  negb (Str.high_surrogate c) && negb (Str.low_surrogate c).

(** What [encodeURIComponent] makes of one unit that is no surrogate. *)
Definition encode_unit (c : N) : JsString :=
  if Str.uri_unreserved c then [c] else Str.escape c.

(** ** What the specification says of the list *)

(** The items of the selected tab; no data counts as no items. *)
Definition tab_items (props : UserItemsListProps)
    (publishedQuery likedQuery demosQuery : QueryResult (JsArray DemoWithComponent))
  : list DemoWithComponent :=
  match tab_data props publishedQuery likedQuery demosQuery with
  | Some a => aitems a
  | None => []
  end.

Definition search_items (searchQuery : JsString) (l : list DemoWithComponent)
  : list DemoWithComponent :=
  if Str.is_empty searchQuery then l else List.filter (search_match_b searchQuery) l.

(** Section 4.4: which items the ownership filter keeps, per tab. *)
Definition OwnershipKeeps (t : UserTab) (userId : JsString) (d : DemoWithComponent) : Prop :=
  match t with
  | tab_components => component_creator_id d = JStr userId
  | tab_demos => demo_author_id d = JStr userId /\ component_creator_id d <> JStr userId
  | tab_bookmarks => True
  end.

Definition ownership_keeps_b (t : UserTab) (userId : JsString) (d : DemoWithComponent) : bool :=
  match t with
  | tab_components => Js.strict_eq_str (component_creator_id d) userId
  | tab_demos =>
      Js.strict_eq_str (demo_author_id d) userId
      && negb (Js.strict_eq_str (component_creator_id d) userId)
  | tab_bookmarks => true
  end.

(** Section 4.5, the three-way decision read on the rendered tree. *)
Definition shows_skeleton (e : Element) : bool :=
  match e with Grid _ (Skeletons _) => true | _ => false end.
Definition shows_no_results (e : Element) : bool :=
  match e with Grid _ (NoResults _) => true | _ => false end.



(** The query whose result the component reads for the tab shown. *)
Definition active_result (props : UserItemsListProps)
    (publishedQuery likedQuery demosQuery : QueryResult (JsArray DemoWithComponent))
  : QueryResult (JsArray DemoWithComponent) :=
  match tab props with
  | tab_components => publishedQuery
  | tab_demos => demosQuery
  | tab_bookmarks => likedQuery
  end.

(** The invariant of section 3 as it is worded: one query enabled, and
    a fetcher given the empty string sends nothing. *)
Definition exactly_one_enabled (props : UserItemsListProps) : Prop :=
  length (List.filter is_enabled (tab_queries props)) = 1%nat.

Definition empty_id_sends_nothing (b : Backend) (h : Heap) : Prop :=
  requests_on_mount b (useUserPublishedDemos []) h = [] /\
  requests_on_mount b (useUserLikedComponents []) h = [] /\
  requests_on_mount b (useUserDemos []) h = [].

(** The requests sent when [UserItemsList] mounts with an empty cache:
    those of its three queries, in the order of the hook calls. *)
Definition UserItemsList_requests (b : Backend) (props : UserItemsListProps) (h : Heap)
  : list Request :=
  flat_map (fun o => requests_on_mount b o h) (tab_queries props).

(** ** Further notions used by the properties of the code *)

(** The three fetcher hooks, to speak of any of them. *)
Inductive Fetcher : Type := PublishedDemos | LikedComponents | ProfileDemos.

Definition fetcher_options (f : Fetcher) (userId : JsString)
  : QueryOptions (JsArray DemoWithComponent) :=
  match f with
  | PublishedDemos => useUserPublishedDemos userId
  | LikedComponents => useUserLikedComponents userId
  | ProfileDemos => useUserDemos userId
  end.

(** The remote procedure call a fetcher sends. *)
Definition fetcher_request (f : Fetcher) (userId : JsString) : Request :=
  match f with
  | PublishedDemos | ProfileDemos => Rpc "get_user_profile_demos" (rpc_args userId)
  | LikedComponents => Rpc "get_user_liked_components" (rpc_args userId)
  end.

(** A value that is absent or an object. *)
Definition is_record (v : JsVal) : bool :=
  match v with
  | JUndefined | JNull | JObj _ => true
  | _ => false
  end.

(** A row whose searched fields have the types the backend declares:
    texts for the names and the preview URL, an object for the joined
    component. *)
Definition row_typed (row : JsVal) : bool :=
  is_text (Js.prop row "name")
  && is_text (Js.prop row "preview_url")
  && is_text (Js.opt_member (Js.prop row "user_data") "name")
  && is_record (Js.prop row "component_data")
  && is_text (Js.opt_member (Js.prop row "component_data") "name").

(** The same props on another tab. *)
Definition with_tab (t : UserTab) (props : UserItemsListProps) : UserItemsListProps :=
  {| className := className props;
     skeletonCount := skeletonCount props;
     userId := userId props;
     tab := t |}.

(** The ownership test read on a backend row: the creator is the [id]
    of [component_user_data], the author the [id] of [user_data]. *)
Definition row_keeps_b (t : UserTab) (userId : JsString) (row : JsVal) : bool :=
  match t with
  | tab_components =>
      Js.strict_eq_str (Js.opt_member (Js.prop row "component_user_data") "id") userId
  | tab_demos =>
      Js.strict_eq_str (Js.opt_member (Js.prop row "user_data") "id") userId
      && negb (Js.strict_eq_str
                 (Js.opt_member (Js.prop row "component_user_data") "id") userId)
  | tab_bookmarks => true
  end.

(** Reading back the escapes [encodeURIComponent] writes for ASCII. *)
Definition unhex (c : N) : N :=
  if (c <? 58)%N then (c - 48)%N else (c - 55)%N.

Fixpoint unescape (s : JsString) : JsString :=
  match s with
  | [] => []
  | c :: rest =>
      if (c =? 37)%N then
        match rest with
        | h1 :: h2 :: rest' => (16 * unhex h1 + unhex h2)%N :: unescape rest'
        | _ => c :: unescape rest
        end
      else c :: unescape rest
  end.

(** Characters that would change the meaning of a path. *)
Definition path_delimiter (c : N) : bool :=
  ((c =? 47) || (c =? 63) || (c =? 35) || (c =? 32) || (c =? 38))%N.

(** ** Sample data *)

(** An engine for the samples, which stay inside the modelled alphabet
    and the safe integers, where the engine has no say. *)
Definition test_engine : Engine :=
  {| unicode_lower := fun s => s;
     unicode_lower_nonempty := fun s H => H;
     big_number := fun n => Str.lit (Str.decimal n) |}.

Definition sample_row (id : Z) (name preview author owner : string) : JsVal :=
  JObj {[ "id" := JNum id;
          "name" := JStr (Str.lit name);
          "preview_url" := JStr (Str.lit preview);
          "user_data" := JObj {[ "id" := JStr (Str.lit author) ]};
          "component_data" := JObj {[ "name" := JStr (Str.lit name); "demo_code" := JStr [] ]};
          "component_user_data" := JObj {[ "id" := JStr (Str.lit owner) ]} ]}.

Definition sample_demo (id : Z) (name preview author owner : string)
  : DemoWithComponent :=
  {| Demo.id := Str.lit (Str.decimal id);
     Demo.name := JStr (Str.lit name);
     Demo.demo_slug := JUndefined;
     Demo.preview_url := JStr (Str.lit preview);
     Demo.video_url := JUndefined;
     Demo.updated_at := JUndefined;
     Demo.created_at := JUndefined;
     Demo.user := JObj {[ "id" := JStr (Str.lit author) ]};
     Demo.user_id := JStr (Str.lit author);
     Demo.component_id := JUndefined;
     Demo.demo_code := JStr [];
     Demo.demo_dependencies := JObj ∅;
     Demo.demo_direct_registry_dependencies := JObj ∅;
     Demo.compiled_css := JUndefined;
     Demo.component :=
       JObj {[ "name" := JStr (Str.lit name); "demo_code" := JStr [];
               "user" := JObj {[ "id" := JStr (Str.lit owner) ]} ]};
     Demo.tags := [];
     Demo.embedding := JNull;
     Demo.embedding_oai := JNull;
     Demo.fts := JNull;
     Demo.pro_preview_image_url := JNull;
     Demo.view_count := JNum 0 |}.

Definition demo_a : DemoWithComponent := sample_demo 1 "Fancy Button" "/p/1.png" "u1" "u1".
Definition demo_b : DemoWithComponent := sample_demo 2 "Card" "/p/2.png" "u1" "u2".
Definition demo_c : DemoWithComponent := sample_demo 3 "Slider" "/p/button.png" "u2" "u1".

(** An item with a given [name] and [updated_at], and nothing else to
    search. *)
Definition stamped_demo (name updated_at : JsVal) : DemoWithComponent :=
  {| Demo.id := Str.lit "4";
     Demo.name := name;
     Demo.demo_slug := JUndefined;
     Demo.preview_url := JUndefined;
     Demo.video_url := JUndefined;
     Demo.updated_at := updated_at;
     Demo.created_at := JUndefined;
     Demo.user := JUndefined;
     Demo.user_id := JUndefined;
     Demo.component_id := JUndefined;
     Demo.demo_code := JStr [];
     Demo.demo_dependencies := JObj ∅;
     Demo.demo_direct_registry_dependencies := JObj ∅;
     Demo.compiled_css := JUndefined;
     Demo.component := JObj {[ "user" := JUndefined ]};
     Demo.tags := [];
     Demo.embedding := JNull;
     Demo.embedding_oai := JNull;
     Demo.fts := JNull;
     Demo.pro_preview_image_url := JNull;
     Demo.view_count := JNum 0 |}.

Definition named_demo (name : JsVal) : DemoWithComponent :=
  stamped_demo name JUndefined.

(** An item whose [updated_at] is an object with a [toString] of its
    own, against its declared type. *)
Definition demo_odd_key : DemoWithComponent :=
  stamped_demo (JStr (Str.lit "x")) (JObj {[ "toString" := JNum 1 ]}).

(** An item whose [name] is a number, against its declared type. *)
Definition demo_ill_typed : DemoWithComponent := named_demo (JNum 4).

(** An item named [AΣB], and the query [AΣ]. *)
Definition demo_sigma : DemoWithComponent :=
  named_demo (JStr [65%N; Str.capital_sigma; 66%N]).
Definition query_sigma : JsString := [65%N; Str.capital_sigma].

(** A row whose [id] is an object with a [toString] of its own. *)
Definition row_odd_id : JsVal :=
  JObj {[ "id" := JObj {[ "toString" := JNum 1 ]}; "name" := JStr (Str.lit "x") ]}.

(** A search text that is one high surrogate, without its partner. *)
Definition lone_surrogate : JsString := [55357%N].

Definition bookmarks_props : UserItemsListProps :=
  {| className := None; skeletonCount := None; userId := Str.lit "u1"; tab := tab_bookmarks |}.
Definition components_props : UserItemsListProps :=
  {| className := None; skeletonCount := None; userId := Str.lit "u1"; tab := tab_components |}.
Definition demos_props : UserItemsListProps :=
  {| className := None; skeletonCount := None; userId := Str.lit "u1"; tab := tab_demos |}.

Definition no_data : QueryResult (JsArray DemoWithComponent) :=
  {| data := None; isLoading := false |}.
Definition loaded (a : JsArray DemoWithComponent) : QueryResult (JsArray DemoWithComponent) :=
  {| data := Some a; isLoading := false |}.

(** A backend that answers every request with no rows and no error. *)
Definition empty_backend : Backend :=
  fun _ => Ok {| resp_data := JArr []; resp_error := JNull |}.

(** A backend whose [users] table holds one administrator, [u1]. *)
Definition admin_backend : Backend :=
  fun r =>
    match r with
    | SelectSingle table columns column value =>
        if String.eqb table "users" && String.eqb columns "is_admin"
           && String.eqb column "id" && Js.strict_eq_str value (Str.lit "u1")
        then Ok {| resp_data := JObj {[ "is_admin" := JBool true ]}; resp_error := JNull |}
        else Ok {| resp_data := JNull;
                   resp_error := JObj {[ "code" := JStr (Str.lit "PGRST116") ]} |}
    | Rpc _ _ =>
        Ok {| resp_data := JNull;
              resp_error := JObj {[ "code" := JStr (Str.lit "PGRST202") ]} |}
    end.

(** A backend that cannot be reached: every request rejects. *)
Definition failing_backend : Backend :=
  fun _ => Err (Thrown (JStr (Str.lit "Failed to fetch"))).

Definition signed_in (id : string) : JsVal := JObj {[ "id" := JStr (Str.lit id) ]}.

(** A backend that answers the profile-demos call with the given
    response and rejects everything else. *)
Definition demos_backend (resp : Response) : Backend :=
  fun r =>
    match r with
    | Rpc fn _ =>
        if String.eqb fn "get_user_profile_demos" then Ok resp
        else Err (Thrown (JStr (Str.lit "Failed to fetch")))
    | _ => Err (Thrown (JStr (Str.lit "Failed to fetch")))
    end.

Definition two_rows : list JsVal :=
  [ sample_row 1 "Fancy Button" "/p/1.png" "u1" "u1";
    sample_row 2 "Card" "/p/2.png" "u1" "u2" ].

(** A backend whose [users] rows hold a text in [is_admin], and report
    an error beside the row. *)
Definition odd_backend : Backend :=
  fun _ => Ok {| resp_data := JObj {[ "is_admin" := JStr (Str.lit "yes") ]};
                 resp_error := JStr (Str.lit "stale") |}.

(** * Properties *)

(** ** Sanity checks of the model *)

Example lower_ex :
  Str.toLowerCase E (Str.lit "BuTTon-1") = Str.lit "button-1" /\
  Str.toLowerCase E [65; 931]%N = [97; 962]%N /\
  Str.toLowerCase E [65; 931; 66]%N = [97; 963; 98]%N /\
  Str.toLowerCase E [931]%N = [963]%N.
Proof. repeat split; reflexivity. Qed.

Example includes_ex :
  Str.includes (Str.lit "my button") (Str.lit "butt") = true /\
  Str.includes (Str.lit "abc") (Str.lit "bd") = false.
Proof. split; reflexivity. Qed.

Example of_number_ex :
  Str.of_number E 120 = Str.lit "120" /\ Str.of_number E (-7) = Str.lit "-7" /\
  Str.of_number E 0 = Str.lit "0" /\
  Str.of_number E (10 ^ 21) = big_number E (10 ^ 21).
Proof. repeat split; reflexivity. Qed.

Example enc_ex :
  Str.encodeURIComponent (Str.lit "a b/c") = Ok (Str.lit "a%20b%2Fc") /\
  Str.encodeURIComponent [233%N] = Ok (Str.lit "%C3%A9") /\
  Str.encodeURIComponent [8364%N] = Ok (Str.lit "%E2%82%AC") /\
  Str.encodeURIComponent [55357; 56832]%N = Ok (Str.lit "%F0%9F%98%80") /\
  Str.encodeURIComponent [55357%N] = Err URIError /\
  Str.encodeURIComponent [56832; 55357]%N = Err URIError.
Proof. repeat split; reflexivity. Qed.

Example to_string_ex :
  Js.to_string E (JArr [JNum 1; JNull; JArr [JStr (Str.lit "a"); JNum 2]; JObj ∅])
    = Ok (Str.lit "1,,a,2,[object Object]") /\
  Js.to_string E (JObj {[ "toString" := JNum 1 ]}) = Err TypeError /\
  Js.to_string E (JArr [JObj {[ "toString" := JNull ]}]) = Err TypeError /\
  Js.toString E (JObj {[ "valueOf" := JNum 1 ]}) = Ok (Str.lit "[object Object]") /\
  Js.toString E JNull = Err TypeError.
Proof. repeat split; vm_compute; reflexivity. Qed.

Example prop_ex :
  Js.prop (JObj {["id" := JNum 7]}) "id" = JNum 7 /\
  Js.prop (JObj {["id" := JNum 7]}) "name" = JUndefined /\
  Js.prop (JArr [JNum 5; JNum 6]) "1" = JNum 6 /\
  Js.prop (JStr (Str.lit "ab")) "length" = JNum 2 /\
  Js.member JNull "id" = Err TypeError.
Proof. repeat split; vm_compute; reflexivity. Qed.

Example spread_ex :
  Js.spread (JStr (Str.lit "ab")) !! "1" = Some (JStr (Str.lit "b")) /\
  Js.spread (JNum 3) = ∅.
Proof. split; vm_compute; reflexivity. Qed.

Example transform_sample :
  transformDemoData (sample_row 1 "Fancy Button" "/p/1.png" "u1" "u1") = Ok demo_a.
Proof. vm_compute. reflexivity. Qed.

Example filter_sample :
  filterComponentsBySearch (Some (MkArray 0 [demo_a; demo_b; demo_c])) (Str.lit "BUTTON") 1%nat
  = Ok (Some (MkArray 1 [demo_a; demo_c]), 2%nat).
Proof. vm_compute. reflexivity. Qed.

(** Outside the declared type the callback throws, and the filter with it. *)
Example filter_ill_typed :
  filterComponentsBySearch (Some (MkArray 0 [demo_a; demo_ill_typed])) (Str.lit "x") 1%nat
  = Err TypeError /\
  filterComponentsBySearch (Some (MkArray 0 [demo_a; demo_ill_typed])) [] 1%nat
  = Ok (Some (MkArray 0 [demo_a; demo_ill_typed]), 1%nat).
Proof. split; vm_compute; reflexivity. Qed.

(** ** Strings *)

Lemma is_empty_true (s : JsString) : Str.is_empty s = true <-> s = [].
Proof. destruct s; simpl; split; congruence. Qed.

Lemma is_empty_false (s : JsString) : s <> [] -> Str.is_empty s = false.
Proof. destruct s; simpl; congruence. Qed.

Lemma eqb_eq (s t : JsString) : Str.eqb s t = true <-> s = t.
Proof.
  revert t. induction s as [|c s IH]; intros [|d t]; simpl;
    try (split; congruence).
  rewrite andb_true_iff, N.eqb_eq, IH. split; [intros [-> ->]; reflexivity|].
  intros [= -> ->]. auto.
Qed.

Lemma starts_with_app (s q : JsString) :
  Str.starts_with s q = true <-> exists post, s = q ++ post.
Proof.
  revert s. induction q as [|c q IH]; intros s; simpl.
  - split; [intros _; exists s; reflexivity | reflexivity].
  - destruct s as [|d s].
    + split; [discriminate | intros [post H]; discriminate].
    + rewrite andb_true_iff, N.eqb_eq, IH. split.
      * intros [-> [post ->]]. eauto.
      * intros [post [= -> ->]]. eauto.
Qed.

Lemma includes_app (s q : JsString) :
  Str.includes s q = true <-> exists pre post, s = pre ++ q ++ post.
Proof.
  induction s as [|c s IH]; simpl.
  - rewrite orb_false_r, starts_with_app. split.
    + intros [post H]. exists [], post. exact H.
    + intros (pre & post & H). destruct pre; [exists post; exact H | discriminate].
  - rewrite orb_true_iff, (starts_with_app (c :: s)), IH. split.
    + intros [[post H] | (pre & post & H)].
      * exists [], post. exact H.
      * exists (c :: pre), post. simpl. congruence.
    + intros (pre & post & H). destruct pre as [|c' pre]; simpl in H.
      * left. exists post. exact H.
      * right. exists pre, post. congruence.
Qed.

Lemma ascii_modelled (s : JsString) :
  Str.is_ascii s = true -> forallb Str.modelled s = true.
Proof.
  unfold Str.is_ascii. rewrite !forallb_forall. intros H c Hc.
  unfold Str.modelled. now rewrite (H c Hc).
Qed.

(** On ASCII text lower-casing works unit by unit. *)
Lemma lower_from_ascii (before : bool) (s : JsString) :
  Str.is_ascii s = true -> Str.lower_from before s = map Str.lower_unit s.
Proof.
  revert before. induction s as [|c s IH]; intros before H; [reflexivity|].
  simpl in H. apply andb_true_iff in H. destruct H as [Hc Hs].
  simpl. rewrite (IH _ Hs). f_equal.
  apply N.ltb_lt in Hc. unfold Str.capital_sigma.
  destruct (N.eqb_spec c 931); [lia | reflexivity].
Qed.

Lemma toLowerCase_ascii (s : JsString) :
  Str.is_ascii s = true -> Str.toLowerCase E s = map Str.lower_unit s.
Proof.
  intros H. unfold Str.toLowerCase. rewrite (ascii_modelled s H).
  now apply lower_from_ascii.
Qed.



Lemma lower_unit_same_letter (c d : N) :
  Str.lower_unit c = Str.lower_unit d <-> same_letter c d.
Proof.
  unfold Str.lower_unit, same_letter.
  destruct (N.leb_spec 65 c), (N.leb_spec c 90), (N.leb_spec 65 d), (N.leb_spec d 90);
    simpl; lia.
Qed.

Lemma map_lower_same_letters (s t : JsString) :
  map Str.lower_unit s = map Str.lower_unit t <-> Forall2 same_letter s t.
Proof.
  revert t. induction s as [|c s IH]; intros [|d t]; simpl.
  - split; [constructor | reflexivity].
  - split; [discriminate | intros H; inversion H].
  - split; [discriminate | intros H; inversion H].
  - split.
    + intros [= Hc Hs]. constructor; [now apply lower_unit_same_letter | now apply IH].
    + intros H. inversion H; subst. f_equal; [now apply lower_unit_same_letter | now apply IH].
Qed.

Lemma is_ascii_app (a b : JsString) :
  Str.is_ascii (a ++ b) = Str.is_ascii a && Str.is_ascii b.
Proof. apply forallb_app. Qed.

(** On ASCII text the test of the code is containment up to case. *)
Lemma ascii_includes_iff (s q : JsString) :
  Str.is_ascii s = true -> Str.is_ascii q = true ->
  Str.includes (Str.toLowerCase E s) (Str.toLowerCase E q) = true
  <-> contains_ignoring_case s q.
Proof.
  intros Hs Hq. rewrite (toLowerCase_ascii s Hs), (toLowerCase_ascii q Hq), includes_app.
  split.
  - intros (pre & post & H).
    apply map_eq_app in H. destruct H as (s1 & s23 & -> & H1 & H23).
    apply map_eq_app in H23. destruct H23 as (s2 & s3 & -> & H2 & H3).
    exists s1, s2, s3. split; [reflexivity|]. now apply map_lower_same_letters.
  - intros (pre & mid & post & -> & Hm).
    exists (map Str.lower_unit pre), (map Str.lower_unit post).
    rewrite !map_app. f_equal. f_equal. now apply map_lower_same_letters.
Qed.

(** ** The search filter *)

Example sigma_sample :
  filterComponentsBySearch (Some (MkArray 0 [demo_sigma])) query_sigma 1%nat
    = Ok (Some (MkArray 1 []), 2%nat) /\
  filterComponentsBySearch (Some (MkArray 0 [demo_sigma])) (query_sigma ++ [66%N]) 1%nat
    = Ok (Some (MkArray 1 [demo_sigma]), 2%nat).
Proof. split; vm_compute; reflexivity. Qed.

Lemma filterR_total {A} (p : A -> Result bool) (f : A -> bool) (l : list A) :
  Forall (fun x => p x = Ok (f x)) l -> filterR p l = Ok (List.filter f l).
Proof.
  induction 1 as [|x l Hx _ IH]; [reflexivity|].
  simpl. rewrite Hx, IH. now destruct (f x).
Qed.

Lemma array_filter_total {A} (p : A -> Result bool) (f : A -> bool)
    (a : JsArray A) (h : Heap) :
  Forall (fun x => p x = Ok (f x)) (aitems a) ->
  array_filter p a h = Ok (MkArray h (List.filter f (aitems a)), S h).
Proof.
  intros H. unfold array_filter, bind, lift, alloc.
  now rewrite (filterR_total p f _ H).
Qed.

Lemma lower_includes_typed (field : JsVal) (q : JsString) :
  is_text field = true ->
  lower_includes field (Str.toLowerCase E q) = Ok (field_contains_b field q).
Proof. destruct field; simpl; intros; now try discriminate. Qed.

Lemma search_callback_typed (q : JsString) (d : DemoWithComponent) :
  text_fields_typed d = true ->
  search_callback (Str.toLowerCase E q) d = Ok (search_match_b q d).
Proof.
  unfold text_fields_typed, search_callback, search_match_b.
  rewrite !andb_true_iff. intros [[[H1 H2] H3] H4].
  rewrite (lower_includes_typed _ q H1), (lower_includes_typed _ q H2),
    (lower_includes_typed _ q H3), (lower_includes_typed _ q H4). simpl.
  destruct (field_contains_b (Demo.name d) q); [reflexivity|]. simpl.
  destruct (field_contains_b (Js.opt_member (Demo.component d) "name") q);
    [reflexivity|]. simpl.
  destruct (field_contains_b (Js.opt_member (Demo.user d) "name") q);
    [reflexivity|]. simpl.
  now destruct (field_contains_b (Demo.preview_url d) q).
Qed.

Lemma field_contains_b_iff (field : JsVal) (q : JsString) :
  field_contains_b field q = true <-> field_contains field q.
Proof.
  unfold field_contains, lowered_contains. destruct field; simpl;
    try (split; [discriminate | intros (s0 & Hs & _); discriminate]).
  rewrite includes_app. split.
  - intros H. exists s. auto.
  - intros (s0 & Hs & H). now injection Hs as ->.
Qed.

Lemma search_match_b_iff (q : JsString) (d : DemoWithComponent) :
  search_match_b q d = true <-> SearchMatch q d.
Proof.
  unfold search_match_b, SearchMatch.
  rewrite !orb_true_iff, !field_contains_b_iff. tauto.
Qed.

Lemma field_contains_b_ascii (field : JsVal) (q : JsString) :
  Str.is_ascii q = true -> ascii_text field = true ->
  field_contains_b field q = true <-> field_contains_ignoring_case field q.
Proof.
  intros Hq Hf. unfold field_contains_ignoring_case. destruct field; simpl;
    try (split; [discriminate | intros (s0 & Hs & _); discriminate]).
  simpl in Hf. rewrite (ascii_includes_iff s q Hf Hq). split.
  - intros H. exists s. auto.
  - intros (s0 & Hs & H). now injection Hs as ->.
Qed.

Lemma search_match_b_ascii (q : JsString) (d : DemoWithComponent) :
  Str.is_ascii q = true -> ascii_fields d = true ->
  search_match_b q d = true <-> SearchMatchIgnoringCase q d.
Proof.
  intros Hq. unfold ascii_fields, search_match_b, SearchMatchIgnoringCase.
  rewrite !andb_true_iff. intros [[[H1 H2] H3] H4].
  rewrite !orb_true_iff.
  rewrite (field_contains_b_ascii _ q Hq H1), (field_contains_b_ascii _ q Hq H2),
    (field_contains_b_ascii _ q Hq H3), (field_contains_b_ascii _ q Hq H4).
  tauto.
Qed.

Lemma filterComponentsBySearch_empty
    (components : option (JsArray DemoWithComponent)) (h : Heap) :
  filterComponentsBySearch components [] h = Ok (components, h).
Proof. destruct components; reflexivity. Qed.

Lemma filterComponentsBySearch_nonempty
    (cs : JsArray DemoWithComponent) (q : JsString) (h : Heap) :
  q <> [] ->
  Forall (fun d => text_fields_typed d = true) (aitems cs) ->
  filterComponentsBySearch (Some cs) q h
    = Ok (Some (MkArray h (List.filter (search_match_b q) (aitems cs))), S h).
Proof.
  intros Hq Hty. unfold filterComponentsBySearch. rewrite (is_empty_false _ Hq).
  unfold bind, ret.
  rewrite (array_filter_total _ (search_match_b q)); [reflexivity|].
  eapply Forall_impl; [exact Hty|]. intros d Hd. now apply search_callback_typed.
Qed.

Lemma filter_none {A} (f : A -> bool) (l : list A) :
  (forall x, In x l -> f x = false) -> List.filter f l = [].
Proof.
  induction l as [|x l IH]; intros H; [reflexivity|].
  simpl. rewrite (H x (or_introl eq_refl)). apply IH. intros y Hy. apply H. now right.
Qed.

(** C2, as amended.  [filterComponentsBySearch] creates nothing and
    returns the very collection it was given when the query is empty
    (also when the collection is [undefined]).  For a non-empty query
    and items whose searched fields have their declared type, it
    returns a new array holding, in the input order, exactly the items
    one of whose four fields (name, component name, user name, preview
    URL), lower-cased, contains the lower-cased query; when no item
    matches, that array is empty.  When the query and the searched
    fields are ASCII, these are exactly the items with a field that
    contains the query as a substring up to the case of letters, as the
    claim words it. *)
Theorem filterComponentsBySearch_spec :
  (forall (components : option (JsArray DemoWithComponent)) (h : Heap),
      filterComponentsBySearch components [] h = Ok (components, h)) /\
  (forall (cs : JsArray DemoWithComponent) (searchQuery : JsString) (h : Heap),
      searchQuery <> [] ->
      Forall (fun d => text_fields_typed d = true) (aitems cs) ->
      filterComponentsBySearch (Some cs) searchQuery h
        = Ok (Some (MkArray h (List.filter (search_match_b searchQuery) (aitems cs))), S h)
      /\ (forall d, search_match_b searchQuery d = true <-> SearchMatch searchQuery d)
      /\ ((forall d, In d (aitems cs) -> ~ SearchMatch searchQuery d) ->
          List.filter (search_match_b searchQuery) (aitems cs) = [])
      /\ (Str.is_ascii searchQuery = true ->
          Forall (fun d => ascii_fields d = true) (aitems cs) ->
          search_as_claimed searchQuery (aitems cs)
            (List.filter (search_match_b searchQuery) (aitems cs)))).
Proof.
  split.
  - apply filterComponentsBySearch_empty.
  - intros cs q h Hq Hty. split; [|split; [|split]].
    + now apply filterComponentsBySearch_nonempty.
    + intros d. apply search_match_b_iff.
    + intros Hno. apply filter_none. intros d Hd.
      destruct (search_match_b q d) eqn:Em; [|reflexivity].
      exfalso. apply (Hno d Hd). now apply search_match_b_iff.
    + intros Haq Hai d. rewrite filter_In. split.
      * intros [Hin Hm]. split; [exact Hin|].
        apply (search_match_b_ascii q d Haq); [|exact Hm].
        rewrite Forall_forall in Hai. apply Hai. now apply list_elem_of_In.
      * intros [Hin Hm]. split; [exact Hin|].
        apply (search_match_b_ascii q d Haq); [|exact Hm].
        rewrite Forall_forall in Hai. apply Hai. now apply list_elem_of_In.
Qed.

(** ** The [components] memo *)

Lemma strict_eq_str_iff (v : JsVal) (s : JsString) :
  Js.strict_eq_str v s = true <-> v = JStr s.
Proof.
  destruct v; simpl; try (split; [discriminate | discriminate]).
  rewrite eqb_eq. split; congruence.
Qed.

Lemma ownership_keeps_b_iff (t : UserTab) (uid : JsString) (d : DemoWithComponent) :
  ownership_keeps_b t uid d = true <-> OwnershipKeeps t uid d.
Proof.
  destruct t; simpl.
  - apply strict_eq_str_iff.
  - rewrite andb_true_iff, negb_true_iff, <- not_true_iff_false, !strict_eq_str_iff.
    tauto.
  - tauto.
Qed.

Lemma or_empty_items {A} (v : option (JsArray A)) (h : Heap) :
  exists r h', or_empty v h = Ok (r, h') /\
    aitems r = match v with Some a => aitems a | None => [] end.
Proof. destruct v as [a|]; simpl; eauto. Qed.

Lemma search_filtered_items (props : UserItemsListProps) (q : JsString)
    (pub liked dem : QueryResult (JsArray DemoWithComponent)) (h : Heap) :
  q = [] \/ Forall (fun d => text_fields_typed d = true) (tab_items props pub liked dem) ->
  exists r h', search_filtered props q pub liked dem h = Ok (r, h') /\
    aitems r = search_items q (tab_items props pub liked dem).
Proof.
  intros Hty. unfold search_filtered, tab_items, search_items in *.
  destruct q as [|c q].
  - unfold bind.
    destruct (tab_data props pub liked dem) as [a|]; cbn [or_empty ret alloc];
      rewrite filterComponentsBySearch_empty; cbn [or_empty ret]; eauto.
  - destruct Hty as [Hq|Hty]; [discriminate|]. unfold bind.
    destruct (tab_data props pub liked dem) as [a|]; cbn [or_empty ret alloc];
      rewrite filterComponentsBySearch_nonempty by (simpl; auto; discriminate);
      cbn [or_empty ret]; eauto.
Qed.

Lemma ownership_filter_items (props : UserItemsListProps)
    (filtered : JsArray DemoWithComponent) (h : Heap) :
  exists r h', ownership_filter props filtered h = Ok (r, h') /\
    aitems r = List.filter (ownership_keeps_b (tab props) (userId props)) (aitems filtered).
Proof.
  unfold ownership_filter. destruct (tab props); simpl.
  - rewrite (array_filter_total _
      (ownership_keeps_b tab_components (userId props))); [eauto|].
    apply Forall_forall. reflexivity.
  - rewrite (array_filter_total _
      (ownership_keeps_b tab_demos (userId props))); [eauto|].
    apply Forall_forall. reflexivity.
  - exists filtered, h. split; [reflexivity|].
    symmetry. apply forallb_filter_id. now apply forallb_forall.
Qed.

(** The final collection: the tab's items, searched, then filtered on
    ownership. *)
Lemma components_items (props : UserItemsListProps) (q : JsString)
    (pub liked dem : QueryResult (JsArray DemoWithComponent)) (h : Heap) :
  q = [] \/ Forall (fun d => text_fields_typed d = true) (tab_items props pub liked dem) ->
  exists cs h', components props q pub liked dem h = Ok (cs, h') /\
    aitems cs = List.filter (ownership_keeps_b (tab props) (userId props))
                  (search_items q (tab_items props pub liked dem)).
Proof.
  intros Hty.
  destruct (search_filtered_items props q pub liked dem h Hty) as (r & h1 & Hs & Hr).
  destruct (ownership_filter_items props r h1) as (cs & h2 & Ho & Hcs).
  exists cs, h2. unfold components, bind. rewrite Hs, Ho, Hcs, Hr. auto.
Qed.

Example components_sample :
  components components_props [] (loaded (MkArray 0 [demo_a; demo_b; demo_c])) no_data no_data 1%nat
    = Ok (MkArray 1 [demo_a; demo_c], 2%nat) /\
  components demos_props [] no_data no_data (loaded (MkArray 0 [demo_a; demo_b; demo_c])) 1%nat
    = Ok (MkArray 1 [demo_b], 2%nat) /\
  components bookmarks_props [] no_data (loaded (MkArray 0 [demo_a; demo_b; demo_c])) no_data 1%nat
    = Ok (MkArray 0 [demo_a; demo_b; demo_c], 1%nat).
Proof. repeat split; vm_compute; reflexivity. Qed.

Lemma In_filter_keeps (t : UserTab) (uid : JsString) (l : list DemoWithComponent)
    (d : DemoWithComponent) :
  In d (List.filter (ownership_keeps_b t uid) l) <-> In d l /\ OwnershipKeeps t uid d.
Proof. now rewrite filter_In, ownership_keeps_b_iff. Qed.

Lemma filter_is_sublist {A} (f : A -> bool) (l : list A) :
  sublist (List.filter f l) l.
Proof.
  induction l as [|x l IH]; [constructor|].
  simpl. destruct (f x); now constructor.
Qed.

(** The creator's [id], read on an item whose component is an object
    with an object as [user]. *)
Lemma creator_id_of_object (d : DemoWithComponent) (m u : gmap string JsVal)
    (uid : JsString) :
  Demo.component d = JObj m -> m !! "user" = Some (JObj u) ->
  Js.opt_member (Js.opt_member (Demo.component d) "user") "id" = JStr uid
  <-> u !! "id" = Some (JStr uid).
Proof.
  intros -> Hm. unfold Js.opt_member. simpl. rewrite Hm. simpl.
  destruct (u !! "id") as [v|]; simpl; split; congruence.
Qed.

(** C3. The ownership filter runs on the outcome of the search filter.
    On the components tab it makes a new array of exactly the items
    for which [demo.component?.user?.id] is the requested user (for a
    component that is an object with an object as [user]: whose [id]
    there is the requested user), so an item whose component has
    another owner is not in the final collection; on the demos tab, of
    the items for which [demo.user?.id] is the requested user and
    [demo.component?.user?.id] is not; on the bookmarks tab it hands the
    collection on as it is. *)
Theorem ownership_filter_spec (props : UserItemsListProps)
    (filtered : JsArray DemoWithComponent) (h : Heap) :
  (forall q pub liked dem,
      components props q pub liked dem
      = bind (search_filtered props q pub liked dem) (ownership_filter props)) /\
  (tab props = tab_components ->
     exists kept,
       ownership_filter props filtered h = Ok (MkArray h kept, S h) /\
       kept = List.filter
                (fun d => Js.strict_eq_str
                            (Js.opt_member (Js.opt_member (Demo.component d) "user") "id")
                            (userId props))
                (aitems filtered) /\
       (forall d, In d kept
                  <-> In d (aitems filtered) /\
                      Js.opt_member (Js.opt_member (Demo.component d) "user") "id"
                      = JStr (userId props)) /\
       (forall d m u, In d (aitems filtered) ->
                      Demo.component d = JObj m -> m !! "user" = Some (JObj u) ->
                      (In d kept <-> u !! "id" = Some (JStr (userId props)))) /\
       (forall q pub liked dem cs h',
           components props q pub liked dem h = Ok (cs, h') ->
           forall d, In d (aitems cs) ->
                     Js.opt_member (Js.opt_member (Demo.component d) "user") "id"
                     = JStr (userId props))) /\
  (tab props = tab_demos ->
     exists kept,
       ownership_filter props filtered h = Ok (MkArray h kept, S h) /\
       kept = List.filter
                (fun d => Js.strict_eq_str (Js.opt_member (Demo.user d) "id") (userId props)
                          && negb (Js.strict_eq_str
                                     (Js.opt_member
                                        (Js.opt_member (Demo.component d) "user") "id")
                                     (userId props)))
                (aitems filtered) /\
       (forall d, In d kept
                  <-> In d (aitems filtered) /\
                      Js.opt_member (Demo.user d) "id" = JStr (userId props) /\
                      Js.opt_member (Js.opt_member (Demo.component d) "user") "id"
                      <> JStr (userId props))) /\
  (tab props = tab_bookmarks -> ownership_filter props filtered h = Ok (filtered, h)).
Proof.
  split; [reflexivity|]. split; [|split].
  - intros Ht.
    exists (List.filter (ownership_keeps_b tab_components (userId props)) (aitems filtered)).
    split; [|split; [|split; [|split]]].
    + unfold ownership_filter. rewrite Ht.
      apply array_filter_total, Forall_forall. reflexivity.
    + reflexivity.
    + intros d. apply (In_filter_keeps tab_components).
    + intros d m u Hin Hc Hu.
      rewrite (In_filter_keeps tab_components). simpl. unfold component_creator_id.
      rewrite (creator_id_of_object d m u (userId props) Hc Hu). tauto.
    + intros q pub liked dem cs h' Hc d Hd.
      unfold components, bind in Hc.
      destruct (search_filtered props q pub liked dem h) as [[r h1]|e]; [|discriminate].
      destruct (ownership_filter_items props r h1) as (cs' & h2 & Ho & Hcs).
      rewrite Ho in Hc. injection Hc as -> ->. rewrite Hcs, Ht in Hd.
      now apply (In_filter_keeps tab_components) in Hd.
  - intros Ht.
    exists (List.filter (ownership_keeps_b tab_demos (userId props)) (aitems filtered)).
    split; [|split].
    + unfold ownership_filter. rewrite Ht.
      apply array_filter_total, Forall_forall. reflexivity.
    + reflexivity.
    + intros d. apply (In_filter_keeps tab_demos).
  - intros Ht. unfold ownership_filter. now rewrite Ht.
Qed.

(** ** Conversion to a string *)

(** Induction on values, with the elements of an array at hand. *)
Lemma JsVal_array_ind (P : JsVal -> Prop) :
  P JUndefined -> P JNull -> (forall b, P (JBool b)) -> (forall n, P (JNum n)) ->
  (forall s, P (JStr s)) -> (forall l, Forall P l -> P (JArr l)) ->
  (forall m, P (JObj m)) ->
  forall v, P v.
Proof.
  intros Hu Hn Hb Hz Hs Ha Ho. fix IH 1.
  intros [| |b|n|s|l|m];
    [exact Hu | exact Hn | apply Hb | apply Hz | apply Hs | | apply Ho].
  apply Ha. induction l as [|x l IHl]; constructor; [apply IH | exact IHl].
Qed.


(** The conversion succeeds exactly on the printable values, and
    throws a [TypeError] on the others. *)
Lemma to_string_printable (v : JsVal) :
  (printable v = true -> exists s, Js.to_string E v = Ok s) /\
  (printable v = false -> Js.to_string E v = Err TypeError).
Proof.
  revert v. apply JsVal_array_ind;
    try (split; [intros _; simpl; eauto | discriminate]).
  - destruct b; eauto.
  - intros l IH. simpl.
    assert (Hl : (forallb (fun x => Js.nullish x || printable x) l = true ->
                  exists parts,
                    mapR (fun x => if Js.nullish x then Ok [] else Js.to_string E x) l
                    = Ok parts) /\
                 (forallb (fun x => Js.nullish x || printable x) l = false ->
                  mapR (fun x => if Js.nullish x then Ok [] else Js.to_string E x) l
                  = Err TypeError)).
    { induction IH as [|x l [Hx1 Hx2] _ [IH1 IH2]]; simpl.
      - split; [eauto | discriminate].
      - destruct (Js.nullish x); simpl.
        + split.
          * intros H. destruct (IH1 H) as [ps ->]. eauto.
          * intros H. now rewrite (IH2 H).
        + destruct (printable x); simpl.
          * destruct (Hx1 eq_refl) as [p ->]. split.
            -- intros H. destruct (IH1 H) as [ps ->]. eauto.
            -- intros H. now rewrite (IH2 H).
          * rewrite (Hx2 eq_refl). split; [discriminate | reflexivity]. }
    destruct Hl as [H1 H2]. split.
    + intros H. destruct (H1 H) as [ps ->]. eauto.
    + intros H. now rewrite (H2 H).
  - intros m. simpl. destruct (m !! "toString"); split; try discriminate; eauto.
Qed.

Lemma to_string_ok (v : JsVal) :
  printable v = true -> exists s, Js.to_string E v = Ok s.
Proof. apply to_string_printable. Qed.

Lemma to_string_err (v : JsVal) :
  printable v = false -> Js.to_string E v = Err TypeError.
Proof. apply to_string_printable. Qed.

(** ** The render decision *)

Lemma card_of_ok (d : DemoWithComponent) :
  key_printable d = true -> exists c, card_of d = Ok c /\ demo c = d.
Proof.
  intros H. unfold card_of. destruct (to_string_ok _ H) as [s ->]. simpl. eauto.
Qed.

Lemma cards_ok (l : list DemoWithComponent) :
  Forall (fun d => key_printable d = true) l ->
  exists cards, mapR card_of l = Ok cards /\ map demo cards = l.
Proof.
  induction 1 as [|d l Hd _ (cards & Hc & Hm)]; [exists []; auto|].
  destruct (card_of_ok d Hd) as (c & Hcd & Hdc).
  exists (c :: cards). simpl. rewrite Hcd, Hc. split; [reflexivity|]. congruence.
Qed.


Lemma Forall_filter_keeps {A} (P : A -> Prop) (f : A -> bool) (l : list A) :
  Forall P l -> Forall P (List.filter f l).
Proof.
  induction 1 as [|x l Hx _ IH]; [constructor|].
  simpl. destruct (f x); [now constructor | exact IH].
Qed.

Example render_samples :
  UserItemsList demos_props (Str.lit "button") no_data no_data (loaded (MkArray 0 [demo_a])) 1%nat
    = Ok (Grid None (NoResults (Str.lit "button")), 3%nat) /\
  UserItemsList components_props [] {| data := None; isLoading := true |} no_data no_data 0%nat
    = Ok (Grid None (Skeletons 12), 2%nat) /\
  UserItemsList components_props [] (loaded (MkArray 0 [demo_a])) no_data no_data 1%nat
    = Ok (Grid None (Cards [{| key := Str.lit "1-undefined"; demo := demo_a |}]), 2%nat).
Proof. repeat split; vm_compute; reflexivity. Qed.

(** A card whose key cannot be built: the render throws. *)
Example render_odd_key :
  UserItemsList bookmarks_props [] no_data (loaded (MkArray 0 [demo_odd_key])) no_data 1%nat
    = Err TypeError /\
  key_printable demo_odd_key = false.
Proof. split; reflexivity. Qed.

(** The outcome of [UserItemsList] once the memo has produced [cs]. *)
Lemma UserItemsList_after_memo (props : UserItemsListProps) (q : JsString)
    (pub liked dem : QueryResult (JsArray DemoWithComponent)) (h h' : Heap)
    (cs : JsArray DemoWithComponent) :
  components props q pub liked dem h = Ok (cs, h') ->
  UserItemsList props q pub liked dem h =
    if match tab props with tab_bookmarks => true | _ => false end
       && negb (isLoading_memo props pub liked dem)
       && (length (aitems cs) =? 0)%nat && Str.is_empty q
    then Ok (EmptyLikedState, h')
    else if showSkeleton props q pub liked dem cs
    then Ok (Grid (className props) (Skeletons (default 12%nat (skeletonCount props))), h')
    else if showEmptyState props q pub liked dem cs
    then Ok (Grid (className props) (NoResults q), h')
    else match mapR card_of (aitems cs) with
         | Ok cards => Ok (Grid (className props) (Cards cards), h')
         | Err e => Err e
         end.
Proof.
  intros Hc. unfold UserItemsList, bind. rewrite Hc.
  destruct (_ && _ && _ && _); [reflexivity|].
  destruct (showSkeleton _ _ _ _ _ _); [reflexivity|].
  destruct (showEmptyState _ _ _ _ _ _); [reflexivity|].
  unfold lift, ret. now destruct (mapR card_of (aitems cs)).
Qed.



(** C5. On the bookmarks tab, with loading over and no search text, the
    filtered collection is the liked items as fetched; when it has no
    item the component returns the empty-bookmarks panel, which is
    neither the skeleton grid nor the no-results panel. *)
Theorem empty_bookmarks_panel (props : UserItemsListProps)
    (pub liked dem : QueryResult (JsArray DemoWithComponent)) (h : Heap) :
  tab props = tab_bookmarks ->
  isLoading liked = false ->
  exists cs h',
    components props [] pub liked dem h = Ok (cs, h') /\
    aitems cs = tab_items props pub liked dem /\
    (length (aitems cs) = 0%nat ->
     UserItemsList props [] pub liked dem h = Ok (EmptyLikedState, h') /\
     shows_skeleton EmptyLikedState = false /\
     shows_no_results EmptyLikedState = false).
Proof.
  intros Ht Hl.
  destruct (components_items props [] pub liked dem h (or_introl eq_refl))
    as (cs & h' & Hc & Hi).
  exists cs, h'. split; [exact Hc|]. split.
  - rewrite Hi, Ht. simpl. apply forallb_filter_id. now apply forallb_forall.
  - intros Hn. split; [|split; reflexivity].
    rewrite (UserItemsList_after_memo _ _ _ _ _ _ _ _ Hc).
    unfold isLoading_memo. rewrite Ht, Hl, Hn. reflexivity.
Qed.

(** ** The three per-tab queries *)

Lemma requests_on_mount_one {A} (b : Backend) (key : list JsVal) (r : Request)
    (k : Response -> M A) (st : option Z) (h : Heap) :
  requests_on_mount b
    {| queryKey := key; queryFn := Await r (fun resp => Done (k resp));
       enabled := None; staleTime := st |} h = [r].
Proof.
  unfold requests_on_mount, mount, is_enabled. simpl.
  destruct (b r) as [resp|e]; simpl; [|reflexivity].
  now destruct (k resp h) as [[a h']|e].
Qed.

Lemma UserItemsList_reads_active (props : UserItemsListProps) (q : JsString)
    (pub liked dem pub' liked' dem' : QueryResult (JsArray DemoWithComponent)) :
  active_result props pub liked dem = active_result props pub' liked' dem' ->
  components props q pub liked dem = components props q pub' liked' dem' /\
  isLoading_memo props pub liked dem = isLoading_memo props pub' liked' dem' /\
  UserItemsList props q pub liked dem = UserItemsList props q pub' liked' dem'.
Proof.
  unfold active_result, UserItemsList, components, search_filtered, showSkeleton,
    showEmptyState, isLoading_memo, tab_data.
  destruct (tab props); intros ->; auto.
Qed.

(** C1, as amended.  Whatever the tab, all three queries of
    [UserItemsList] are enabled (no fetcher passes [enabled]), and
    mounting the component sends three remote procedure calls: the
    fetcher of the tab shown gets the requested user, the other two get
    the empty string and send their call with it as [p_user_id].  What
    is tied to the tab is the reading: the collection, the loading
    flag and the rendered tree depend on the result of the tab's own
    query only. *)
Theorem tab_queries_all_fetch (props : UserItemsListProps) (b : Backend) (h : Heap) :
  Forall (fun o => is_enabled o = true) (tab_queries props) /\
  UserItemsList_requests b props h =
    [ Rpc "get_user_profile_demos"
        (rpc_args (match tab props with tab_components => userId props | _ => [] end));
      Rpc "get_user_liked_components"
        (rpc_args (match tab props with tab_bookmarks => userId props | _ => [] end));
      Rpc "get_user_profile_demos"
        (rpc_args (match tab props with tab_demos => userId props | _ => [] end)) ] /\
  requests_on_mount b (useUserPublishedDemos []) h
    = [Rpc "get_user_profile_demos" (rpc_args [])] /\
  requests_on_mount b (useUserLikedComponents []) h
    = [Rpc "get_user_liked_components" (rpc_args [])] /\
  requests_on_mount b (useUserDemos []) h
    = [Rpc "get_user_profile_demos" (rpc_args [])] /\
  (forall q pub liked dem pub' liked' dem',
      active_result props pub liked dem = active_result props pub' liked' dem' ->
      components props q pub liked dem = components props q pub' liked' dem' /\
      isLoading_memo props pub liked dem = isLoading_memo props pub' liked' dem' /\
      UserItemsList props q pub liked dem = UserItemsList props q pub' liked' dem').
Proof.
  split; [repeat constructor|].
  split; [|repeat split; try apply requests_on_mount_one;
             now apply UserItemsList_reads_active].
  unfold UserItemsList_requests, tab_queries. simpl.
  unfold publishedQuery_options, likedQuery_options, demosQuery_options,
    useUserPublishedDemos, useUserLikedComponents, useUserDemos.
  now rewrite !requests_on_mount_one.
Qed.

(** ** The admin check *)

Example useIsAdmin_samples :
  requests_on_mount admin_backend (useIsAdmin_query JNull) 0%nat = [] /\
  useIsAdmin (settled_state admin_backend (useIsAdmin_query JNull) 0%nat) = JBool false /\
  requests_on_mount admin_backend (useIsAdmin_query (signed_in "u1")) 0%nat
    = [admin_lookup (signed_in "u1")] /\
  useIsAdmin (settled_state admin_backend (useIsAdmin_query (signed_in "u1")) 0%nat)
    = JBool true /\
  useIsAdmin (settled_state admin_backend (useIsAdmin_query (signed_in "u2")) 0%nat)
    = JBool false /\
  useIsAdmin (settled_state failing_backend (useIsAdmin_query (signed_in "u1")) 0%nat)
    = JBool false.
Proof. repeat split; vm_compute; reflexivity. Qed.

Lemma nullish_user_id (user : JsVal) :
  Js.nullish user = true -> Js.truthy (Js.opt_member user "id") = false.
Proof. unfold Js.opt_member. now intros ->. Qed.

Lemma useIsAdmin_query_signed_out (b : Backend) (user : JsVal) (h : Heap) :
  Js.truthy (Js.opt_member user "id") = false ->
  mount b (useIsAdmin_query user) h = ([], Pending, h).
Proof. intros H. unfold mount, is_enabled, useIsAdmin_query. simpl. now rewrite H. Qed.

Lemma useIsAdmin_query_signed_in (b : Backend) (user : JsVal) (h : Heap) :
  Js.truthy (Js.opt_member user "id") = true ->
  mount b (useIsAdmin_query user) h =
    match b (admin_lookup user) with
    | Ok resp =>
        ([admin_lookup user],
         Success (Js.coalesce (Js.opt_member (resp_data resp) "is_admin") (JBool false)), h)
    | Err e => ([admin_lookup user], Failed e, h)
    end.
Proof.
  intros H. unfold mount, is_enabled, useIsAdmin_query, admin_lookup. simpl.
  rewrite H. simpl. now destruct (b _).
Qed.

(** C6. With nobody signed in the query of [useIsAdmin] is disabled:
    mounting it sends nothing, it stays without data, and the hook
    returns [false] (its function, were it run, would return [false]
    before any lookup too).  While the query of a signed-in user is
    pending the hook returns [false].  Once the lookup has answered with
    a row whose [is_admin] is [true], the hook returns [true]. *)
Theorem useIsAdmin_spec (b : Backend) (user : JsVal) (h : Heap) :
  (Js.nullish user = true -> Js.truthy (Js.opt_member user "id") = false) /\
  (Js.truthy (Js.opt_member user "id") = false ->
     is_enabled (useIsAdmin_query user) = false /\
     requests_on_mount b (useIsAdmin_query user) h = [] /\
     settled_state b (useIsAdmin_query user) h = Pending /\
     useIsAdmin (settled_state b (useIsAdmin_query user) h) = JBool false /\
     run b (queryFn (useIsAdmin_query user)) h = ([], Ok (JBool false, h))) /\
  useIsAdmin Pending = JBool false /\
  (forall row err,
     Js.truthy (Js.opt_member user "id") = true ->
     b (admin_lookup user) = Ok {| resp_data := row; resp_error := err |} ->
     Js.opt_member row "is_admin" = JBool true ->
     requests_on_mount b (useIsAdmin_query user) h = [admin_lookup user] /\
     useIsAdmin (settled_state b (useIsAdmin_query user) h) = JBool true).
Proof.
  split; [apply nullish_user_id|]. split; [|split; [reflexivity|]].
  - intros H. unfold requests_on_mount, settled_state.
    rewrite (useIsAdmin_query_signed_out b user h H).
    unfold is_enabled, useIsAdmin_query. simpl. rewrite H. auto.
  - intros row err H Hb Hrow. unfold requests_on_mount, settled_state.
    rewrite (useIsAdmin_query_signed_in b user h H), Hb. simpl.
    now rewrite Hrow.
Qed.

(** C7. For a signed-in user, whenever the lookup brings no flag the
    hook returns [false], and the failure stays inside the query: when
    the request rejects the query ends in its error state, without
    data; when the answer has no row ([data] is [null], as on a lookup
    that failed or found nothing), or a row without [is_admin], or with
    [is_admin] [null], the query function returns [false]. *)
Theorem useIsAdmin_degrades (b : Backend) (user : JsVal) (h : Heap) :
  Js.truthy (Js.opt_member user "id") = true ->
  (forall e, b (admin_lookup user) = Err e ->
     settled_state b (useIsAdmin_query user) h = Failed e /\
     useIsAdmin (settled_state b (useIsAdmin_query user) h) = JBool false) /\
  (forall resp, b (admin_lookup user) = Ok resp ->
     Js.nullish (Js.opt_member (resp_data resp) "is_admin") = true ->
     settled_state b (useIsAdmin_query user) h = Success (JBool false) /\
     useIsAdmin (settled_state b (useIsAdmin_query user) h) = JBool false) /\
  (forall row : JsVal,
     row = JNull \/ row = JUndefined \/
     (exists m, row = JObj m /\ (m !! "is_admin" = None \/ m !! "is_admin" = Some JNull)) ->
     Js.nullish (Js.opt_member row "is_admin") = true) /\
  (forall e, useIsAdmin (Failed e) = JBool false).
Proof.
  intros H. unfold settled_state. rewrite (useIsAdmin_query_signed_in b user h H).
  split; [|split; [|split]].
  - intros e ->. auto.
  - intros resp -> Hn. simpl. unfold Js.coalesce. rewrite Hn. auto.
  - intros row [->|[->|(m & -> & [Hm|Hm])]]; try reflexivity;
      unfold Js.opt_member; simpl; now rewrite Hm.
  - reflexivity.
Qed.

(** ** The global search *)

Lemma unreserved_small (c : N) : Str.uri_unreserved c = true -> (c < 128)%N.
Proof.
  unfold Str.uri_unreserved.
  rewrite !orb_true_iff, !andb_true_iff, !N.leb_le, !N.eqb_eq. lia.
Qed.

Lemma small_no_surrogate (c : N) :
  (c < 55296)%N -> Str.high_surrogate c = false /\ Str.low_surrogate c = false.
Proof.
  intros H. unfold Str.high_surrogate, Str.low_surrogate.
  rewrite !andb_false_iff, !N.leb_gt. lia.
Qed.

Lemma unreserved_no_surrogate (c : N) :
  Str.uri_unreserved c = true ->
  Str.high_surrogate c = false /\ Str.low_surrogate c = false.
Proof. intros H. apply small_no_surrogate. apply unreserved_small in H. lia. Qed.

(** [encodeURIComponent] returns on the well-formed texts, and throws a
    [URIError] on the others. *)
Lemma encodeURIComponent_well_formed (s : JsString) :
  (well_formed s = true -> exists r, Str.encodeURIComponent s = Ok r) /\
  (well_formed s = false -> Str.encodeURIComponent s = Err URIError).
Proof.
  assert (H : forall n s, (length s <= n)%nat ->
            (well_formed s = true -> exists r, Str.encodeURIComponent s = Ok r) /\
            (well_formed s = false -> Str.encodeURIComponent s = Err URIError)).
  { clear s. induction n as [|n IH]; intros s Hn.
    - destruct s; [|simpl in Hn; lia]. split; [eauto | discriminate].
    - destruct s as [|c s]; [split; [simpl; eauto | discriminate]|].
      simpl in Hn. cbn [well_formed Str.encodeURIComponent].
      destruct (Str.uri_unreserved c) eqn:Hu.
      + destruct (unreserved_no_surrogate c Hu) as [-> ->].
        destruct (IH s ltac:(lia)) as [I1 I2]. split; intros Hw.
        * destruct (I1 Hw) as [r ->]. eauto.
        * now rewrite (I2 Hw).
      + destruct (Str.low_surrogate c); [split; [discriminate | reflexivity]|].
        destruct (Str.high_surrogate c).
        * destruct s as [|d s]; [split; [discriminate | reflexivity]|].
          destruct (Str.low_surrogate d); [|split; [discriminate | reflexivity]].
          simpl in Hn. destruct (IH s ltac:(lia)) as [I1 I2]. simpl. split; intros Hw.
          -- destruct (I1 Hw) as [r ->]. eauto.
          -- now rewrite (I2 Hw).
        * destruct (IH s ltac:(lia)) as [I1 I2]. split; intros Hw.
          -- destruct (I1 Hw) as [r ->]. eauto.
          -- now rewrite (I2 Hw). }
  exact (H (length s) s (le_n _)).
Qed.

(** On a text without surrogates the encoding goes unit by unit. *)
Lemma encodeURIComponent_units (s : JsString) :
  forallb no_surrogate s = true ->
  Str.encodeURIComponent s = Ok (flat_map encode_unit s).
Proof.
  induction s as [|c s IH]; [reflexivity|].
  cbn [forallb]. rewrite andb_true_iff. intros [Hc Hs].
  unfold no_surrogate in Hc. rewrite andb_true_iff, !negb_true_iff in Hc.
  destruct Hc as [Hh Hl].
  cbn [Str.encodeURIComponent flat_map]. rewrite (IH Hs). unfold encode_unit.
  destruct (Str.uri_unreserved c); [reflexivity|]. now rewrite Hl, Hh.
Qed.

Lemma unreserved_units (s : JsString) :
  forallb Str.uri_unreserved s = true ->
  forallb no_surrogate s = true /\ flat_map encode_unit s = s.
Proof.
  induction s as [|c s IH]; [auto|].
  cbn [forallb flat_map]. rewrite andb_true_iff. intros [Hc Hs].
  destruct (IH Hs) as [I1 I2]. rewrite I1, I2. unfold no_surrogate, encode_unit.
  destruct (unreserved_no_surrogate c Hc) as [-> ->]. now rewrite Hc.
Qed.

Lemma encodeURIComponent_unreserved (s : JsString) :
  forallb Str.uri_unreserved s = true -> Str.encodeURIComponent s = Ok s.
Proof.
  intros H. destruct (unreserved_units s H) as [H1 H2].
  now rewrite (encodeURIComponent_units s H1), H2.
Qed.

Lemma on_trigger_navigations (t : Trigger) (q : JsString) :
  navigations (fst (on_trigger t q)) = navigations (fst (handleGlobalSearch q)) /\
  snd (on_trigger t q) = snd (handleGlobalSearch q).
Proof. now destruct t. Qed.

Example handleGlobalSearch_sample :
  on_trigger ModEnter (Str.lit "a b/c")
    = ([PreventDefault; RouterPush (Str.lit "/q/a%20b%2Fc")], None) /\
  on_trigger SearchEverywhereClick [] = ([], None) /\
  on_trigger ModEnter lone_surrogate = ([PreventDefault], Some URIError).
Proof. repeat split; reflexivity. Qed.

(** C8, as amended.  Either trigger (the button or the hotkey) with an
    empty search text pushes nothing.  With a search text that is not
    empty and whose surrogates are paired it pushes exactly one route,
    ["/q/"] followed by the URL-encoding of the text: each unit that is
    a letter, a digit or one of [- _ . ! ~ * ' ( )] as it is, any other
    one as the [%XX] escapes of its UTF-8 octets; so ["/q/button"] for
    "button", ["/q/a%20b%2Fc"] for "a b/c", ["/q/%C3%A9"] for the e with
    an acute accent and ["/q/%F0%9F%98%80"] for the pair U+D83D U+DE00.
    With a text that has a surrogate without its partner
    [encodeURIComponent] throws a [URIError] and nothing is pushed. *)
Theorem handleGlobalSearch_spec (t : Trigger) (searchQuery : JsString) :
  (navigations (fst (on_trigger t [])) = [] /\ snd (on_trigger t []) = None) /\
  (searchQuery <> [] -> well_formed searchQuery = true ->
     exists encoded,
       Str.encodeURIComponent searchQuery = Ok encoded /\
       navigations (fst (on_trigger t searchQuery)) = [Str.lit "/q/" ++ encoded] /\
       snd (on_trigger t searchQuery) = None /\
       (forallb no_surrogate searchQuery = true ->
        encoded = flat_map encode_unit searchQuery) /\
       (forallb Str.uri_unreserved searchQuery = true -> encoded = searchQuery)) /\
  (well_formed searchQuery = false ->
     navigations (fst (on_trigger t searchQuery)) = [] /\
     snd (on_trigger t searchQuery) = Some URIError) /\
  navigations (fst (on_trigger t (Str.lit "button"))) = [Str.lit "/q/button"] /\
  navigations (fst (on_trigger t (Str.lit "a b/c"))) = [Str.lit "/q/a%20b%2Fc"] /\
  navigations (fst (on_trigger t [233%N])) = [Str.lit "/q/%C3%A9"] /\
  navigations (fst (on_trigger t [55357%N; 56832%N])) = [Str.lit "/q/%F0%9F%98%80"].
Proof.
  split; [now destruct t|]. split; [|split; [|now destruct t]].
  - intros Hq Hw.
    destruct (proj1 (encodeURIComponent_well_formed searchQuery) Hw) as [r Hr].
    exists r. destruct (on_trigger_navigations t searchQuery) as [-> ->].
    unfold handleGlobalSearch. rewrite (is_empty_false _ Hq), Hr.
    repeat split; try reflexivity.
    + intros Hs. rewrite (encodeURIComponent_units _ Hs) in Hr. congruence.
    + intros Hs. rewrite (encodeURIComponent_unreserved _ Hs) in Hr. congruence.
  - intros Hw. destruct (on_trigger_navigations t searchQuery) as [-> ->].
    unfold handleGlobalSearch.
    destruct searchQuery as [|c s]; [discriminate Hw|]. cbn [Str.is_empty].
    now rewrite (proj2 (encodeURIComponent_well_formed (c :: s)) Hw).
Qed.

(** ** The two fetchers of profile demos *)

(** C9. For every user identifier the fetcher of the components tab
    and the fetcher of the demos tab have the same query function: one
    call of [get_user_profile_demos] with [p_user_id] the identifier and
    [p_include_private] false, then [transformDemoData] on each row.
    Against the same backend they send the same request and end in the
    same state, and given the same data the two tabs hand the same
    collection to the ownership filter.  Their options differ in the
    query key only. *)
Theorem profile_demos_fetchers_agree (userId : JsString) :
  queryFn (useUserPublishedDemos userId) = queryFn (useUserDemos userId) /\
  enabled (useUserPublishedDemos userId) = enabled (useUserDemos userId) /\
  staleTime (useUserPublishedDemos userId) = staleTime (useUserDemos userId) /\
  queryKey (useUserPublishedDemos userId) <> queryKey (useUserDemos userId) /\
  (forall b h,
      requests_on_mount b (useUserPublishedDemos userId) h
        = [Rpc "get_user_profile_demos" (rpc_args userId)] /\
      mount b (useUserPublishedDemos userId) h = mount b (useUserDemos userId) h) /\
  rpc_args userId !! "p_user_id" = Some (JStr userId) /\
  rpc_args userId !! "p_include_private" = Some (JBool false) /\
  (forall cls1 cls2 n1 n2 q r pub liked dem pub' liked' dem',
      data pub = r -> data dem' = r ->
      search_filtered
        {| className := cls1; skeletonCount := n1; userId := userId; tab := tab_components |}
        q pub liked dem
      = search_filtered
        {| className := cls2; skeletonCount := n2; userId := userId; tab := tab_demos |}
        q pub' liked' dem').
Proof.
  repeat split; try reflexivity.
  - simpl. intros H. discriminate H.
  - apply requests_on_mount_one.
  - intros. unfold search_filtered, tab_data. simpl. congruence.
Qed.

(** ** Row normalisation *)

Example transformDemoData_samples :
  transformDemoData (JObj {[ "name" := JStr (Str.lit "x") ]}) = Err TypeError /\
  transformDemoData (JObj {[ "id" := JNull ]}) = Err TypeError /\
  transformDemoData JNull = Err TypeError /\
  transformDemoData row_odd_id = Err TypeError /\
  (exists d, transformDemoData (JObj {[ "id" := JStr (Str.lit "k7") ]}) = Ok d /\
     Demo.id d = Str.lit "k7" /\ Demo.demo_code d = JStr [] /\
     Demo.demo_dependencies d = JObj ∅ /\ Demo.view_count d = JNum 0 /\
     Demo.component d = JObj {[ "user" := JUndefined ]}) /\
  (exists d, transformDemoData
       (JObj {[ "id" := JNum 12; "view_count" := JNum 5;
                "component_data" := JObj {[ "demo_code" := JStr (Str.lit "<A/>");
                                           "user" := JStr (Str.lit "stale") ]};
                "component_user_data" := JObj {[ "id" := JStr (Str.lit "u9") ]} ]}) = Ok d /\
     Demo.id d = Str.lit "12" /\ Demo.demo_code d = JStr (Str.lit "<A/>") /\
     Demo.view_count d = JNum 5 /\
     component_creator_id d = JStr (Str.lit "u9")) /\
  (exists d, transformDemoData
       (JObj {[ "id" := JArr [JNum 1; JNull; JArr [JBool true; JStr (Str.lit "x")]] ]}) = Ok d /\
     Demo.id d = Str.lit "1,,true,x").
Proof.
  repeat split; try (vm_compute; reflexivity);
    eexists; (split; [vm_compute; reflexivity|]); repeat split; vm_compute; reflexivity.
Qed.

Lemma member_ok (data : JsVal) (k : string) :
  Js.nullish data = false -> Js.member data k = Ok (Js.prop data k).
Proof. unfold Js.member. now intros ->. Qed.

Lemma toString_ok (v : JsVal) :
  Js.nullish v = false -> printable v = true ->
  exists s, Js.to_string E v = Ok s /\ Js.toString E v = Ok s.
Proof.
  intros Hn Hp. destruct (to_string_ok v Hp) as [s Hs].
  exists s. split; [exact Hs|]. unfold Js.toString. now rewrite Hn.
Qed.

Lemma toString_err (v : JsVal) :
  Js.nullish v = true \/ printable v = false -> Js.toString E v = Err TypeError.
Proof.
  unfold Js.toString. intros [->|Hp]; [reflexivity|].
  destruct (Js.nullish v); [reflexivity|]. now apply to_string_err.
Qed.

Lemma row_id_converts_iff (row : JsVal) :
  row_id_converts row = true <->
  Js.nullish row = false /\ Js.nullish (Js.prop row "id") = false /\
  printable (Js.prop row "id") = true.
Proof.
  unfold row_id_converts. rewrite !andb_true_iff, !negb_true_iff. tauto.
Qed.

(** C10, as amended.  [transformDemoData] reads [data.id] and calls
    [toString] on it before anything else, so it throws a [TypeError]
    when the row or its [id] is [null] or [undefined], and also when the
    [id] is neither but has no callable [toString]: an object with a
    [toString] entry of its own, or an array that holds one.  On every
    other row it returns an item: [id] is the string form of the row's
    [id] (a string as it is, a safe integer in decimal digits);
    [demo_code] is the component's when truthy, else the empty string;
    [demo_dependencies] the component's [dependencies] when truthy, else
    the empty object; [view_count] the row's when truthy, else 0;
    [tags] is the empty list and [embedding], [embedding_oai], [fts],
    [pro_preview_image_url] are [null]; [user_id], [component_id] and
    [compiled_css] are read through optional access. *)
Theorem transformDemoData_total (data : JsVal) :
  (Js.nullish data = true \/ Js.nullish (Js.prop data "id") = true ->
     transformDemoData data = Err TypeError) /\
  (printable (Js.prop data "id") = false -> transformDemoData data = Err TypeError) /\
  (Js.nullish data = false -> Js.nullish (Js.prop data "id") = false ->
   printable (Js.prop data "id") = true ->
     exists d, transformDemoData data = Ok d /\
       Js.to_string E (Js.prop data "id") = Ok (Demo.id d) /\
       (forall s, Js.prop data "id" = JStr s -> Demo.id d = s) /\
       (forall n, Js.prop data "id" = JNum n -> (Z.abs n < 2 ^ 53)%Z ->
          Demo.id d = Str.lit (Str.decimal n)) /\
       Demo.demo_code d =
         (if Js.truthy (Js.opt_member (Js.prop data "component_data") "demo_code")
          then Js.opt_member (Js.prop data "component_data") "demo_code"
          else JStr []) /\
       Demo.demo_dependencies d =
         (if Js.truthy (Js.opt_member (Js.prop data "component_data") "dependencies")
          then Js.opt_member (Js.prop data "component_data") "dependencies"
          else JObj ∅) /\
       Demo.view_count d =
         (if Js.truthy (Js.prop data "view_count") then Js.prop data "view_count"
          else JNum 0) /\
       Demo.tags d = [] /\
       Demo.embedding d = JNull /\ Demo.embedding_oai d = JNull /\
       Demo.fts d = JNull /\ Demo.pro_preview_image_url d = JNull /\
       Demo.user_id d = Js.opt_member (Js.prop data "user_data") "id" /\
       Demo.component_id d = Js.opt_member (Js.prop data "component_data") "id" /\
       Demo.compiled_css d = Js.opt_member (Js.prop data "component_data") "compiled_css").
Proof.
  assert (Herr : Js.nullish data = true \/ Js.nullish (Js.prop data "id") = true \/
                 printable (Js.prop data "id") = false ->
                 transformDemoData data = Err TypeError).
  { intros H. unfold transformDemoData. destruct (Js.nullish data) eqn:Hd.
    - unfold Js.member at 1. now rewrite Hd.
    - rewrite (member_ok _ _ Hd). unfold bindR at 1.
      destruct H as [H|H]; [discriminate H|]. now rewrite (toString_err _ H). }
  split; [intros [H|H]; apply Herr; auto|]. split; [intros H; apply Herr; auto|].
  intros Hd Hid Hp. unfold transformDemoData.
  rewrite !(member_ok _ _ Hd). cbn [bindR].
  destruct (toString_ok _ Hid Hp) as (s & Hs & ->). cbn [bindR].
  eexists. split; [reflexivity|]. cbn [Demo.id]. split; [exact Hs|].
  split; [|split]; [| |repeat split].
  - intros s' Hs'. rewrite Hs' in Hs. simpl in Hs. congruence.
  - intros n Hn Hlt. rewrite Hn in Hs. simpl in Hs. unfold Str.of_number in Hs.
    apply Z.ltb_lt in Hlt. rewrite Hlt in Hs. congruence.
Qed.

(** * Further properties of the code *)

(** ** What a fetch ends in *)

Lemma transformDemoData_ok (row : JsVal) :
  row_id_converts row = true -> exists d, transformDemoData row = Ok d.
Proof.
  rewrite row_id_converts_iff. intros (Hd & Hid & Hp).
  unfold transformDemoData. rewrite !(member_ok _ _ Hd). cbn [bindR].
  destruct (toString_ok _ Hid Hp) as (s & _ & ->). cbn [bindR]. eauto.
Qed.

Lemma transformDemoData_err (row : JsVal) :
  row_id_converts row = false -> transformDemoData row = Err TypeError.
Proof.
  unfold row_id_converts, transformDemoData. intros H.
  destruct (Js.nullish row) eqn:Hd.
  - unfold Js.member at 1. now rewrite Hd.
  - rewrite (member_ok _ _ Hd). cbn [bindR]. simpl in H.
    rewrite toString_err; [reflexivity|].
    destruct (Js.nullish (Js.prop row "id")); [now left|]. simpl in H. now right.
Qed.

Lemma transformDemoData_ok_iff (row : JsVal) :
  (exists d, transformDemoData row = Ok d) <-> row_id_converts row = true.
Proof.
  split; [|apply transformDemoData_ok].
  intros [d Hd]. destruct (row_id_converts row) eqn:Hr; [reflexivity|].
  rewrite (transformDemoData_err _ Hr) in Hd. discriminate.
Qed.

Lemma mapR_ok_iff {A B} (f : A -> Result B) (l : list A) (ys : list B) :
  mapR f l = Ok ys <-> Forall2 (fun x y => f x = Ok y) l ys.
Proof.
  revert ys. induction l as [|x l IH]; intros ys; simpl.
  - split; [intros [= <-]; constructor | intros H; now inversion H].
  - destruct (f x) as [y|e] eqn:Ex.
    + destruct (mapR f l) as [ys'|e] eqn:El.
      * split.
        -- intros [= <-]. constructor; [exact Ex | now apply IH].
        -- intros H. inversion H as [|? y0 ? ys0 Hy Hys]; subst.
           apply IH in Hys. congruence.
      * split; [discriminate|]. intros H.
        inversion H as [|? y0 ? ys0 Hy Hys]; subst. apply IH in Hys. discriminate.
    + split; [discriminate|]. intros H. inversion H; congruence.
Qed.

Lemma Forall2_In_left {A B} (P : A -> B -> Prop) (l : list A) (ys : list B) (x : A) :
  Forall2 P l ys -> In x l -> exists y, P x y.
Proof.
  induction 1 as [|x0 y0 l ys Hxy _ IH]; intros Hin; [destruct Hin|].
  destruct Hin as [<-|Hin]; eauto.
Qed.

Lemma mapR_transform_ok (rows : list JsVal) :
  Forall (fun r => row_id_converts r = true) rows ->
  exists items, mapR transformDemoData rows = Ok items.
Proof.
  induction 1 as [|r rows Hr _ [items IH]]; [now exists []|].
  destruct (transformDemoData_ok r Hr) as [d Hd].
  exists (d :: items). simpl. now rewrite Hd, IH.
Qed.

Lemma mapR_transform_err (rows : list JsVal) :
  ~ Forall (fun r => row_id_converts r = true) rows ->
  mapR transformDemoData rows = Err TypeError.
Proof.
  induction rows as [|r rows IH]; intros H; [destruct H; constructor|].
  simpl. destruct (row_id_converts r) eqn:Hr.
  - destruct (transformDemoData_ok r Hr) as [d ->].
    rewrite IH; [reflexivity|]. intros HF. apply H. now constructor.
  - now rewrite (transformDemoData_err r Hr).
Qed.

(** The outcome of mounting any of the three fetchers, step by step. *)
Lemma mount_fetcher (f : Fetcher) (uid : JsString) (b : Backend) (h : Heap) :
  mount b (fetcher_options f uid) h =
    match b (fetcher_request f uid) with
    | Err e => ([fetcher_request f uid], Failed e, h)
    | Ok resp =>
        if Js.truthy (resp_error resp)
        then ([fetcher_request f uid], Failed (Thrown (resp_error resp)), h)
        else match resp_data resp with
             | JArr rows =>
                 match mapR transformDemoData rows with
                 | Ok items => ([fetcher_request f uid], Success (MkArray h items), S h)
                 | Err e => ([fetcher_request f uid], Failed e, h)
                 end
             | _ => ([fetcher_request f uid], Failed TypeError, h)
             end
    end.
Proof.
  destruct f; unfold mount, is_enabled; simpl;
    (destruct (b _) as [resp|e]; [|reflexivity]);
    simpl; (destruct (Js.truthy (resp_error resp)); [reflexivity|]);
    unfold data_map; (destruct (resp_data resp) as [| | | | |rows|]; try reflexivity);
    unfold bind, lift, alloc; now destruct (mapR transformDemoData rows).
Qed.

(** X1. An error reported by the backend wins over the data: when the
    response of a fetcher's call carries a truthy [error], the query
    ends in its error state with that error and has no data, whatever
    [data] the response holds; a request that rejects fails the query
    with the rejection. *)
Theorem fetch_error_wins (f : Fetcher) (uid : JsString) (b : Backend) (h : Heap) :
  (forall resp,
      b (fetcher_request f uid) = Ok resp ->
      Js.truthy (resp_error resp) = true ->
      settled_state b (fetcher_options f uid) h = Failed (Thrown (resp_error resp)) /\
      data_of (settled_state b (fetcher_options f uid) h) = None) /\
  (forall e,
      b (fetcher_request f uid) = Err e ->
      settled_state b (fetcher_options f uid) h = Failed e).
Proof.
  unfold settled_state. rewrite mount_fetcher. split.
  - intros resp -> ->. auto.
  - now intros e ->.
Qed.

(** X2. A fetch succeeds exactly when the request is answered, the
    answer has no (truthy) error, its [data] is an array, and every row
    has an [id] that converts to a string: one row without [id], or
    with an [id] whose [toString] cannot be called, fails the whole
    fetch with a [TypeError], and so does [data] that is not an array,
    [null] included.  On success the data is a new array with one item
    per row, in the order of the rows, each the normalisation of its
    row. *)
Theorem fetch_success_iff (f : Fetcher) (uid : JsString) (b : Backend) (h : Heap) :
  ((exists a, settled_state b (fetcher_options f uid) h = Success a) <->
   (exists resp rows,
       b (fetcher_request f uid) = Ok resp /\
       Js.truthy (resp_error resp) = false /\
       resp_data resp = JArr rows /\
       Forall (fun r => row_id_converts r = true) rows)) /\
  (forall a, settled_state b (fetcher_options f uid) h = Success a ->
     exists resp rows,
       b (fetcher_request f uid) = Ok resp /\ resp_data resp = JArr rows /\
       aref a = h /\
       length (aitems a) = length rows /\
       Forall2 (fun row d => transformDemoData row = Ok d) rows (aitems a)) /\
  (forall resp rows,
     b (fetcher_request f uid) = Ok resp ->
     Js.truthy (resp_error resp) = false ->
     resp_data resp = JArr rows ->
     Exists (fun r => row_id_converts r = false) rows ->
     settled_state b (fetcher_options f uid) h = Failed TypeError) /\
  (forall resp,
     b (fetcher_request f uid) = Ok resp ->
     Js.truthy (resp_error resp) = false ->
     (forall rows, resp_data resp <> JArr rows) ->
     settled_state b (fetcher_options f uid) h = Failed TypeError).
Proof.
  unfold settled_state. rewrite mount_fetcher.
  destruct (b (fetcher_request f uid)) as [resp|e]; simpl.
  2:{ split; [split|split; [|split]];
        [intros [a H]; discriminate
        | intros (r & rows & H & _); discriminate
        | intros a H; discriminate
        | intros r rows H; discriminate
        | intros r H; discriminate]. }
  destruct (Js.truthy (resp_error resp)) eqn:Ee; simpl.
  { split; [split|split; [|split]];
      [intros [a H]; discriminate
      | intros (r & rows & [= <-] & H & _); congruence
      | intros a H; discriminate
      | intros r rows [= <-] H; congruence
      | intros r [= <-] H; congruence]. }
  destruct (resp_data resp) as [| | | | |rows|] eqn:Ed; simpl;
    try (split; [split|split; [|split]];
           [intros [a H]; discriminate
           | intros (r & rows & [= <-] & _ & H & _); congruence
           | intros a H; discriminate
           | intros r rows [= <-] _ H; congruence
           | reflexivity]).
  destruct (mapR transformDemoData rows) as [items|e] eqn:Em; simpl.
  - pose proof Em as Em'. apply mapR_ok_iff in Em.
    assert (HF : Forall (fun r => row_id_converts r = true) rows).
    { apply Forall_forall. intros r Hr. apply list_elem_of_In in Hr.
      destruct (Forall2_In_left _ _ _ _ Em Hr) as [d Hd].
      apply transformDemoData_ok_iff. eauto. }
    split; [split|split; [|split]].
    + intros _. exists resp, rows. repeat split; auto.
    + intros _. eauto.
    + intros a [= <-]. exists resp, rows. repeat split; auto.
      symmetry. now apply (Forall2_length _ _ _ Em).
    + intros r rows' [= <-] _ Hd Hex. rewrite Ed in Hd. injection Hd as <-.
      exfalso. apply Exists_exists in Hex. destruct Hex as (x & Hx & Hxf).
      rewrite Forall_forall in HF. rewrite (HF x Hx) in Hxf. discriminate.
    + intros r [= <-] _ Hno. exfalso. now apply (Hno rows).
  - assert (He : e = TypeError /\ ~ Forall (fun r => row_id_converts r = true) rows).
    { destruct (decide (Forall (fun r => row_id_converts r = true) rows)) as [HF|HF].
      - destruct (mapR_transform_ok rows HF) as [items Hi]. congruence.
      - rewrite (mapR_transform_err rows HF) in Em. split; [congruence | exact HF]. }
    destruct He as [-> HnF].
    split; [split|split; [|split]];
      [intros [a H]; discriminate | | intros a H; discriminate | reflexivity | reflexivity].
    intros (r & rows' & [= <-] & _ & Hd & HF). rewrite Ed in Hd. injection Hd as <-.
    contradiction.
Qed.

Example fetch_samples :
  settled_state (demos_backend {| resp_data := JArr two_rows; resp_error := JNull |})
    (fetcher_options PublishedDemos (Str.lit "u1")) 5%nat
  = Success (MkArray 5 [demo_a; demo_b]) /\
  settled_state
    (demos_backend
       {| resp_data := JArr (two_rows ++ [JObj {[ "name" := JStr (Str.lit "x") ]}])%list;
          resp_error := JNull |})
    (fetcher_options PublishedDemos (Str.lit "u1")) 5%nat
  = Failed TypeError /\
  settled_state
    (demos_backend {| resp_data := JArr (two_rows ++ [row_odd_id])%list;
                      resp_error := JNull |})
    (fetcher_options PublishedDemos (Str.lit "u1")) 5%nat
  = Failed TypeError /\
  settled_state (demos_backend {| resp_data := JNull; resp_error := JNull |})
    (fetcher_options ProfileDemos (Str.lit "u1")) 5%nat
  = Failed TypeError.
Proof. repeat split; vm_compute; reflexivity. Qed.

(** ** Normalised rows in the filters *)

(** The item of a row that has an [id], field by field. *)
Lemma transformDemoData_fields (row : JsVal) (d : DemoWithComponent) :
  transformDemoData row = Ok d ->
  Demo.name d = Js.prop row "name" /\
  Demo.preview_url d = Js.prop row "preview_url" /\
  Demo.user d = Js.prop row "user_data" /\
  Demo.user_id d = Js.opt_member (Js.prop row "user_data") "id" /\
  Demo.component d =
    JObj (<["user" := Js.prop row "component_user_data"]>
            (Js.spread (Js.prop row "component_data"))) /\
  Demo.updated_at d = Js.prop row "updated_at".
Proof.
  intros H.
  assert (Hok : row_id_converts row = true) by (apply transformDemoData_ok_iff; eauto).
  apply row_id_converts_iff in Hok. destruct Hok as (Hd & Hid & Hp).
  unfold transformDemoData in H. rewrite !(member_ok _ _ Hd) in H. cbn [bindR] in H.
  destruct (toString_ok _ Hid Hp) as (s & _ & Hs). rewrite Hs in H. cbn [bindR] in H.
  injection H as <-. repeat split.
Qed.

Lemma transformed_owner_ids_aux (row : JsVal) (d : DemoWithComponent) :
  transformDemoData row = Ok d ->
  component_creator_id d = Js.opt_member (Js.prop row "component_user_data") "id" /\
  demo_author_id d = Js.opt_member (Js.prop row "user_data") "id".
Proof.
  intros H. destruct (transformDemoData_fields row d H) as (_ & _ & Hu & _ & Hc & _).
  unfold component_creator_id, demo_author_id. rewrite Hc, Hu. split; [|reflexivity].
  unfold Js.opt_member at 2. simpl. now rewrite lookup_insert_eq.
Qed.

(** X3. In the item made from a row, the component's creator is the
    [id] of the row's [component_user_data], also when the row's
    [component_data] carries a [user] of its own (the spread value is
    overwritten), and the author is the [id] of the row's [user_data],
    the same value as the item's [user_id].  Every other property of the
    item's component is the one of [component_data]. *)
Theorem transformed_owner_ids (row : JsVal) (d : DemoWithComponent) :
  transformDemoData row = Ok d ->
  component_creator_id d = Js.opt_member (Js.prop row "component_user_data") "id" /\
  demo_author_id d = Js.opt_member (Js.prop row "user_data") "id" /\
  Demo.user_id d = demo_author_id d /\
  (forall k, k <> "user" ->
     Js.opt_member (Demo.component d) k
     = default JUndefined (Js.spread (Js.prop row "component_data") !! k)).
Proof.
  intros H. destruct (transformDemoData_fields row d H) as (_ & _ & Hu & Hui & Hc & _).
  unfold component_creator_id, demo_author_id. rewrite Hc, Hu, Hui.
  repeat split.
  - unfold Js.opt_member at 2. simpl. now rewrite lookup_insert_eq.
  - intros k Hk. unfold Js.opt_member. simpl. now rewrite lookup_insert_ne.
Qed.

Lemma typed_row_typed_item (row : JsVal) (d : DemoWithComponent) :
  row_typed row = true -> transformDemoData row = Ok d -> text_fields_typed d = true.
Proof.
  unfold row_typed. rewrite !andb_true_iff.
  intros [[[[Hn Hp] Hun] Hcr] Hcn] H.
  destruct (transformDemoData_fields row d H) as (En & Ep & Eu & _ & Ec & _).
  unfold text_fields_typed. rewrite En, Ep, Eu, Ec, Hn, Hp, Hun. simpl.
  rewrite andb_true_r. unfold Js.opt_member at 1. simpl.
  rewrite lookup_insert_ne by discriminate.
  destruct (Js.prop row "component_data"); try discriminate Hcr; try reflexivity.
  rewrite andb_true_r. exact Hcn.
Qed.

(** X4. Rows with the declared field types give items with the declared
    field types, so the search filter does not throw on a collection
    fetched from such rows: for every query it returns a collection. *)
Theorem typed_rows_search_total (rows : list JsVal) (items : list DemoWithComponent)
    (n : nat) (q : JsString) (h : Heap) :
  Forall (fun r => row_typed r = true) rows ->
  mapR transformDemoData rows = Ok items ->
  Forall (fun d => text_fields_typed d = true) items /\
  exists r h',
    filterComponentsBySearch (Some (MkArray n items)) q h = Ok (Some r, h') /\
    aitems r = search_items q items.
Proof.
  intros Hty Hm. apply mapR_ok_iff in Hm.
  assert (Hit : Forall (fun d => text_fields_typed d = true) items).
  { clear -Hty Hm. induction Hm as [|r d rows items Hrd _ IH]; [constructor|].
    inversion Hty; subst. constructor; [now apply (typed_row_typed_item r)|auto]. }
  split; [exact Hit|]. unfold search_items.
  destruct q as [|c q].
  - rewrite filterComponentsBySearch_empty. eauto.
  - rewrite filterComponentsBySearch_nonempty by (auto; discriminate). eauto.
Qed.

Lemma row_keeps_item_keeps (t : UserTab) (uid : JsString)
    (row : JsVal) (d : DemoWithComponent) :
  transformDemoData row = Ok d -> row_keeps_b t uid row = ownership_keeps_b t uid d.
Proof.
  intros H. destruct (transformed_owner_ids_aux row d H) as [Hc Ha].
  destruct t; simpl; now rewrite ?Hc, ?Ha.
Qed.

Lemma kept_rows_kept_items (t : UserTab) (uid : JsString)
    (rows : list JsVal) (items : list DemoWithComponent) :
  Forall2 (fun row d => transformDemoData row = Ok d) rows items ->
  Forall2 (fun row d => transformDemoData row = Ok d)
    (List.filter (row_keeps_b t uid) rows)
    (List.filter (ownership_keeps_b t uid) items).
Proof.
  induction 1 as [|row d rows items Hrd _ IH]; [constructor|].
  simpl. rewrite (row_keeps_item_keeps t uid row d Hrd).
  destruct (ownership_keeps_b t uid d); [constructor|]; auto.
Qed.

(** X5. Filtering the rows on ownership and then normalising them gives
    the same items as normalising them and then running the tab's
    ownership filter: what a tab shows is decided by the [id] of the
    row's [component_user_data] and of its [user_data] alone. *)
Theorem ownership_filter_on_rows (t : UserTab) (uid : JsString)
    (rows : list JsVal) (items : list DemoWithComponent) :
  mapR transformDemoData rows = Ok items ->
  mapR transformDemoData (List.filter (row_keeps_b t uid) rows)
    = Ok (List.filter (ownership_keeps_b t uid) items).
Proof.
  intros H. apply mapR_ok_iff in H. apply mapR_ok_iff.
  now apply kept_rows_kept_items.
Qed.

(** ** The two ownership filters side by side *)

(** X6. For one user and one collection, no item is kept by both the
    components tab and the demos tab, every item the user authored is
    kept by one of the two, and everything on the demos tab is authored
    by the user.  (The components tab may hold items of other authors:
    demos of the user's components.) *)
Theorem tabs_split_authored (props : UserItemsListProps)
    (filtered : JsArray DemoWithComponent) (h1 h2 : Heap) :
  exists r1 r2,
    ownership_filter (with_tab tab_components props) filtered h1 = Ok (r1, S h1) /\
    ownership_filter (with_tab tab_demos props) filtered h2 = Ok (r2, S h2) /\
    (forall d, In d (aitems r1) -> In d (aitems r2) -> False) /\
    (forall d, In d (aitems filtered) -> demo_author_id d = JStr (userId props) ->
               In d (aitems r1) \/ In d (aitems r2)) /\
    (forall d, In d (aitems r2) -> demo_author_id d = JStr (userId props)).
Proof.
  exists (MkArray h1 (List.filter (ownership_keeps_b tab_components (userId props))
                        (aitems filtered))),
         (MkArray h2 (List.filter (ownership_keeps_b tab_demos (userId props))
                        (aitems filtered))).
  split; [|split].
  - unfold ownership_filter. simpl. apply array_filter_total, Forall_forall. reflexivity.
  - unfold ownership_filter. simpl. apply array_filter_total, Forall_forall. reflexivity.
  - simpl. repeat split.
    + intros d H1 H2. apply In_filter_keeps in H1, H2. simpl in H1, H2. tauto.
    + intros d Hd Ha.
      destruct (Js.strict_eq_str (component_creator_id d) (userId props)) eqn:Hs.
      * left. apply In_filter_keeps. split; [exact Hd|]. now apply strict_eq_str_iff.
      * right. apply In_filter_keeps. split; [exact Hd|]. split; [exact Ha|].
        intros Hc. apply strict_eq_str_iff in Hc. congruence.
    + intros d H2. apply In_filter_keeps in H2. simpl in H2. tauto.
Qed.

(** ** More on the search filter *)


Lemma lowered_contains_narrow (s q a b : JsString) :
  Str.is_ascii (a ++ q ++ b) = true ->
  lowered_contains s (a ++ q ++ b) -> lowered_contains s q.
Proof.
  intros Ha (pre & post & Hs).
  pose proof Ha as Ha'. rewrite !is_ascii_app, !andb_true_iff in Ha'.
  destruct Ha' as (_ & Hq & _).
  rewrite (toLowerCase_ascii _ Ha), !map_app in Hs.
  exists (pre ++ map Str.lower_unit a), (map Str.lower_unit b ++ post).
  rewrite (toLowerCase_ascii _ Hq), Hs. now rewrite <- !app_assoc.
Qed.

Lemma SearchMatch_narrow (q a b : JsString) (d : DemoWithComponent) :
  Str.is_ascii (a ++ q ++ b) = true ->
  SearchMatch (a ++ q ++ b) d -> SearchMatch q d.
Proof.
  intros Ha. unfold SearchMatch, field_contains.
  intros [H|[H|[H|H]]]; destruct H as (s & Hs & Hc);
    apply (lowered_contains_narrow _ _ _ _ Ha) in Hc; eauto 6.
Qed.

(** X8. With a query of ASCII characters, typing more never brings
    items back: when the query [q] occurs inside the longer query
    [a ++ q ++ b], every item found for the longer query is found for
    [q] too.  (Outside ASCII this fails: the capital sigma lower-cases
    differently at the end of the query.) *)
Theorem longer_query_narrows (cs : JsArray DemoWithComponent) (q a b : JsString) (h : Heap) :
  Forall (fun d => text_fields_typed d = true) (aitems cs) ->
  Str.is_ascii (a ++ q ++ b) = true ->
  exists r r' h1 h2,
    filterComponentsBySearch (Some cs) q h = Ok (Some r, h1) /\
    filterComponentsBySearch (Some cs) (a ++ q ++ b) h = Ok (Some r', h2) /\
    (forall d, In d (aitems r') -> In d (aitems r)).
Proof.
  intros Hty Ha. destruct q as [|c q].
  - rewrite filterComponentsBySearch_empty.
    destruct (a ++ [] ++ b) as [|x l] eqn:Hab.
    + rewrite filterComponentsBySearch_empty. eauto 10.
    + rewrite filterComponentsBySearch_nonempty by (auto; discriminate).
      do 4 eexists. split; [reflexivity|]. split; [reflexivity|].
      simpl. intros d Hd. now apply filter_In in Hd.
  - assert (Hne : a ++ (c :: q) ++ b <> []) by (destruct a; discriminate).
    rewrite !filterComponentsBySearch_nonempty by (auto; discriminate).
    do 4 eexists. split; [reflexivity|]. split; [reflexivity|].
    simpl. intros d Hd. apply filter_In in Hd. destruct Hd as [Hin Hm].
    apply filter_In. split; [exact Hin|].
    apply search_match_b_iff. apply search_match_b_iff in Hm.
    now apply (SearchMatch_narrow (c :: q) a b).
Qed.

Lemma filter_idempotent {A} (f : A -> bool) (l : list A) :
  List.filter f (List.filter f l) = List.filter f l.
Proof.
  induction l as [|x l IH]; [reflexivity|].
  simpl. destruct (f x) eqn:Hx; [|exact IH]. simpl. now rewrite Hx, IH.
Qed.

(** X9. The search filter only drops items: what it returns is a
    sublist of the input (nothing added, nothing reordered, nothing
    twice that was there once), and searching the outcome again for
    the same query drops nothing more. *)
Theorem search_result_stable (cs : JsArray DemoWithComponent) (q : JsString) (h : Heap) :
  Forall (fun d => text_fields_typed d = true) (aitems cs) ->
  exists r h1,
    filterComponentsBySearch (Some cs) q h = Ok (Some r, h1) /\
    sublist (aitems r) (aitems cs) /\
    (length (aitems r) <= length (aitems cs))%nat /\
    exists r2 h2,
      filterComponentsBySearch (Some r) q h1 = Ok (Some r2, h2) /\
      aitems r2 = aitems r.
Proof.
  intros Hty. destruct q as [|c q].
  - rewrite filterComponentsBySearch_empty. exists cs, h.
    split; [reflexivity|]. split; [reflexivity|]. split; [lia|].
    rewrite filterComponentsBySearch_empty. eauto.
  - rewrite filterComponentsBySearch_nonempty by (auto; discriminate).
    do 2 eexists. split; [reflexivity|]. cbn [aitems].
    split; [apply filter_is_sublist|].
    split; [apply sublist_length, filter_is_sublist|].
    rewrite filterComponentsBySearch_nonempty;
      [|discriminate | now apply Forall_filter_keeps].
    do 2 eexists. split; [reflexivity|]. cbn [aitems]. apply filter_idempotent.
Qed.

(** ** More on what is rendered *)


(** X11. On the components and demos tabs there is no empty state
    without a search: when no item of the tab's data passes the
    ownership filter (no data at all included) and the search text is
    empty, the component renders the skeleton placeholders, loading or
    not, [skeletonCount] of them, 12 when the prop is left out. *)
Theorem skeletons_when_nothing_kept (props : UserItemsListProps)
    (pub liked dem : QueryResult (JsArray DemoWithComponent)) (h : Heap) :
  tab props <> tab_bookmarks ->
  (forall d, In d (tab_items props pub liked dem) ->
             ownership_keeps_b (tab props) (userId props) d = false) ->
  exists h',
    UserItemsList props [] pub liked dem h
    = Ok (Grid (className props) (Skeletons (default 12%nat (skeletonCount props))), h').
Proof.
  intros Ht Hnone.
  destruct (components_items props [] pub liked dem h (or_introl eq_refl))
    as (cs & h' & Hc & Hi).
  unfold search_items in Hi. simpl in Hi. rewrite (filter_none _ _ Hnone) in Hi.
  exists h'. rewrite (UserItemsList_after_memo _ _ _ _ _ _ _ _ Hc).
  unfold showSkeleton, no_length. rewrite Hi. simpl.
  destruct (tab props); [| |congruence]; simpl;
    now rewrite ?andb_false_r, ?orb_true_r.
Qed.

(** X12. The dependency lists of the two memos are complete: the
    collection depends on the tab, the user, the search text and the
    [data] of the three queries only, the loading flag on the tab and
    the three [isLoading] flags only.  Neither changes with
    [className] or [skeletonCount]. *)
Theorem memo_dependencies (p1 p2 : UserItemsListProps) (q : JsString)
    (pub1 liked1 dem1 pub2 liked2 dem2 : QueryResult (JsArray DemoWithComponent)) :
  tab p1 = tab p2 ->
  (userId p1 = userId p2 ->
   data pub1 = data pub2 -> data liked1 = data liked2 -> data dem1 = data dem2 ->
   components p1 q pub1 liked1 dem1 = components p2 q pub2 liked2 dem2) /\
  (isLoading pub1 = isLoading pub2 -> isLoading liked1 = isLoading liked2 ->
   isLoading dem1 = isLoading dem2 ->
   isLoading_memo p1 pub1 liked1 dem1 = isLoading_memo p2 pub2 liked2 dem2).
Proof.
  intros Ht. split.
  - intros Hu Hp Hl Hd.
    unfold components, search_filtered, ownership_filter, tab_data.
    now rewrite Ht, Hu, Hp, Hl, Hd.
  - intros Hp Hl Hd. unfold isLoading_memo. now rewrite Ht, Hp, Hl, Hd.
Qed.

(** ** Cache keys *)

(** X13. Cache keys never collide: two fetcher queries with the same
    key are the same fetcher for the same user, and no key of a fetcher
    is a key of the admin query; two admin queries with the same key
    are for the same user [id]. *)
Theorem query_keys_separate (f1 f2 : Fetcher) (uid1 uid2 : JsString) (user1 user2 : JsVal) :
  (queryKey (fetcher_options f1 uid1) = queryKey (fetcher_options f2 uid2) ->
   f1 = f2 /\ uid1 = uid2) /\
  queryKey (fetcher_options f1 uid1) <> queryKey (useIsAdmin_query user1) /\
  (queryKey (useIsAdmin_query user1) = queryKey (useIsAdmin_query user2) ->
   Js.opt_member user1 "id" = Js.opt_member user2 "id").
Proof.
  split; [|split].
  - destruct f1, f2; simpl; intros H; try discriminate H;
      injection H as ->; auto.
  - destruct f1; simpl; intros H; discriminate H.
  - simpl. intros H. now injection H.
Qed.

(** ** More on the admin check *)

(** X14. The hook does not turn the fetched flag into a boolean and
    does not look at the [error] of the answer: for a signed-in user
    whose row has an [is_admin] that is neither [null] nor [undefined],
    it returns that very value; and two answers with the same [data]
    leave the query in the same state whatever their [error]. *)
Theorem useIsAdmin_raw_flag (b : Backend) (user : JsVal) (h : Heap) (resp : Response) :
  Js.truthy (Js.opt_member user "id") = true ->
  b (admin_lookup user) = Ok resp ->
  (Js.nullish (Js.opt_member (resp_data resp) "is_admin") = false ->
   useIsAdmin (settled_state b (useIsAdmin_query user) h)
   = Js.opt_member (resp_data resp) "is_admin") /\
  (forall b' resp',
     b' (admin_lookup user) = Ok resp' -> resp_data resp' = resp_data resp ->
     settled_state b' (useIsAdmin_query user) h
     = settled_state b (useIsAdmin_query user) h).
Proof.
  intros Hu Hb. unfold settled_state. rewrite (useIsAdmin_query_signed_in b user h Hu), Hb.
  split.
  - intros Hn. simpl. unfold Js.coalesce. rewrite Hn. unfold useIsAdmin. simpl.
    now destruct (Js.opt_member (resp_data resp) "is_admin").
  - intros b' resp' Hb' Hd.
    rewrite (useIsAdmin_query_signed_in b' user h Hu), Hb'. simpl. now rewrite Hd.
Qed.

(** ** More on the route of the global search *)

Lemma hex_digit_unreserved (n : N) :
  (n < 16)%N -> Str.uri_unreserved (Str.hex_digit n) = true.
Proof.
  intros H.
  assert (Hn : In n [0; 1; 2; 3; 4; 5; 6; 7; 8; 9; 10; 11; 12; 13; 14; 15]%N).
  { simpl. lia. }
  simpl in Hn. repeat (destruct Hn as [<-|Hn]; [reflexivity|]). destruct Hn.
Qed.

Lemma unhex_hex_digit (n : N) : (n < 16)%N -> unhex (Str.hex_digit n) = n.
Proof.
  intros H. unfold unhex, Str.hex_digit.
  destruct (N.ltb_spec n 10).
  - destruct (N.ltb_spec (48 + n) 58); lia.
  - destruct (N.ltb_spec (55 + n) 58); lia.
Qed.

Lemma percent_alphabet (b : N) :
  Forall (fun c => Str.uri_unreserved c = true \/ c = 37%N) (Str.percent b).
Proof.
  unfold Str.percent.
  constructor; [now right|].
  constructor; [left; apply hex_digit_unreserved, N.mod_lt; discriminate|].
  constructor; [left; apply hex_digit_unreserved, N.mod_lt; discriminate|].
  constructor.
Qed.

Lemma escape_alphabet (v : N) :
  Forall (fun c => Str.uri_unreserved c = true \/ c = 37%N) (Str.escape v).
Proof.
  unfold Str.escape. induction (Str.utf8 v) as [|b l IH]; [constructor|].
  cbn [flat_map]. apply Forall_app. split; [apply percent_alphabet | exact IH].
Qed.

Lemma unreserved_not_delimiter (c : N) :
  Str.uri_unreserved c = true \/ c = 37%N -> path_delimiter c = false.
Proof.
  intros [H| ->]; [|reflexivity].
  unfold Str.uri_unreserved in H. unfold path_delimiter.
  rewrite !orb_true_iff, !andb_true_iff, !N.leb_le, !N.eqb_eq in H.
  rewrite !orb_false_iff, !N.eqb_neq. lia.
Qed.

Lemma encodeURIComponent_alphabet (s r : JsString) :
  Str.encodeURIComponent s = Ok r ->
  Forall (fun c => Str.uri_unreserved c = true \/ c = 37%N) r.
Proof.
  assert (H : forall n s r, (length s <= n)%nat ->
            Str.encodeURIComponent s = Ok r ->
            Forall (fun c => Str.uri_unreserved c = true \/ c = 37%N) r).
  { clear s r. induction n as [|n IH]; intros s r Hn.
    - destruct s; [|simpl in Hn; lia]. intros [= <-]. constructor.
    - destruct s as [|c s]; [intros [= <-]; constructor|].
      simpl in Hn. cbn [Str.encodeURIComponent].
      destruct (Str.uri_unreserved c) eqn:Hu.
      + destruct (Str.encodeURIComponent s) as [r0|] eqn:Hs; [|discriminate].
        intros [= <-]. constructor; [now left|]. apply (IH s); [lia | exact Hs].
      + destruct (Str.low_surrogate c); [discriminate|].
        destruct (Str.high_surrogate c).
        * destruct s as [|d s]; [discriminate|].
          destruct (Str.low_surrogate d); [|discriminate].
          simpl in Hn.
          destruct (Str.encodeURIComponent s) as [r0|] eqn:Hs; [|discriminate].
          intros [= <-]. apply Forall_app. split; [apply escape_alphabet|].
          apply (IH s); [lia | exact Hs].
        * destruct (Str.encodeURIComponent s) as [r0|] eqn:Hs; [|discriminate].
          intros [= <-]. apply Forall_app. split; [apply escape_alphabet|].
          apply (IH s); [lia | exact Hs]. }
  exact (H (length s) s r (le_n _)).
Qed.

Lemma pushed_by_trigger (t : Trigger) (q path : JsString) :
  In (RouterPush path) (fst (on_trigger t q)) ->
  exists r, Str.encodeURIComponent q = Ok r /\ path = Str.lit "/q/" ++ r.
Proof.
  intros H.
  assert (Hh : In (RouterPush path) (fst (handleGlobalSearch q))).
  { destruct t; [exact H|]. simpl in H. destruct H as [H|H]; [discriminate H | exact H]. }
  unfold handleGlobalSearch in Hh.
  destruct (Str.is_empty q); [destruct Hh|].
  destruct (Str.encodeURIComponent q) as [r|e]; [|destruct Hh].
  simpl in Hh. destruct Hh as [Hh|[]]. injection Hh as <-. eauto.
Qed.

(** X15. The search text cannot change the shape of the route: a route
    the global search pushes is ["/q/"] followed by characters that are
    letters, digits, one of [- _ . ! ~ * ' ( )], or the percent sign of
    an escape, so none of them is a slash, a question mark, a hash, an
    ampersand or a space. *)
Theorem pushed_route_is_one_segment (t : Trigger) (searchQuery path : JsString) :
  In (RouterPush path) (fst (on_trigger t searchQuery)) ->
  exists tail,
    path = Str.lit "/q/" ++ tail /\
    Forall (fun c => Str.uri_unreserved c = true \/ c = 37%N) tail /\
    Forall (fun c => path_delimiter c = false) tail.
Proof.
  intros H. destruct (pushed_by_trigger _ _ _ H) as (r & Hr & ->).
  exists r. split; [reflexivity|]. split.
  - now apply (encodeURIComponent_alphabet searchQuery).
  - eapply Forall_impl; [now apply (encodeURIComponent_alphabet searchQuery)|].
    apply unreserved_not_delimiter.
Qed.

Lemma ascii_no_surrogate (s : JsString) :
  Str.is_ascii s = true -> forallb no_surrogate s = true.
Proof.
  unfold Str.is_ascii. rewrite !forallb_forall. intros H c Hc.
  specialize (H c Hc). apply N.ltb_lt in H.
  destruct (small_no_surrogate c ltac:(lia)) as [Hh Hl].
  unfold no_surrogate. now rewrite Hh, Hl.
Qed.

Lemma unescape_encode_unit (c : N) (rest : JsString) :
  (c < 128)%N -> unescape (encode_unit c ++ rest) = c :: unescape rest.
Proof.
  intros Hc. unfold encode_unit. destruct (Str.uri_unreserved c) eqn:Hu.
  - simpl. destruct (N.eqb_spec c 37) as [->|_]; [discriminate Hu | reflexivity].
  - unfold Str.escape, Str.utf8. apply N.ltb_lt in Hc. rewrite Hc. apply N.ltb_lt in Hc.
    cbn [flat_map Str.percent app unescape]. change (37 =? 37)%N with true. cbv iota.
    f_equal. rewrite !unhex_hex_digit by (apply N.mod_lt; discriminate).
    rewrite (N.mod_small (c / 16) 16).
    + symmetry. apply N.div_mod'.
    + apply N.Div0.div_lt_upper_bound. lia.
Qed.

Lemma unescape_units (s : JsString) :
  Str.is_ascii s = true -> unescape (flat_map encode_unit s) = s.
Proof.
  induction s as [|c s IH]; [reflexivity|].
  cbn [Str.is_ascii forallb flat_map]. rewrite andb_true_iff. intros [Hc Hs].
  apply N.ltb_lt in Hc. rewrite (unescape_encode_unit c _ Hc). f_equal. now apply IH.
Qed.

Lemma unescape_encodeURIComponent (s : JsString) :
  Str.is_ascii s = true ->
  exists r, Str.encodeURIComponent s = Ok r /\ unescape r = s.
Proof.
  intros H. exists (flat_map encode_unit s). split.
  - apply encodeURIComponent_units. now apply ascii_no_surrogate.
  - now apply unescape_units.
Qed.

(** X16. For search texts of ASCII characters the route tells the
    text: the escapes can be read back, so two such texts that make the
    global search do the same thing are the same text.  (Texts with a
    surrogate without its partner all make it do the same thing: throw.) *)
Theorem route_determines_search (t : Trigger) (q1 q2 : JsString) :
  Str.is_ascii q1 = true -> Str.is_ascii q2 = true ->
  on_trigger t q1 = on_trigger t q2 ->
  q1 = q2 /\
  exists r, Str.encodeURIComponent q1 = Ok r /\ unescape r = q1.
Proof.
  intros H1 H2 H. split; [|now apply unescape_encodeURIComponent].
  assert (Hh : handleGlobalSearch q1 = handleGlobalSearch q2).
  { destruct t; simpl in H; [exact H|].
    injection H as Ha Hb. now apply injective_projections. }
  unfold handleGlobalSearch in Hh.
  destruct (unescape_encodeURIComponent q1 H1) as (r1 & Hr1 & Hu1).
  destruct (unescape_encodeURIComponent q2 H2) as (r2 & Hr2 & Hu2).
  rewrite Hr1, Hr2 in Hh.
  destruct q1 as [|c1 q1], q2 as [|c2 q2]; cbn [Str.is_empty] in Hh;
    try reflexivity; try discriminate Hh.
  injection Hh as Hh. congruence.
Qed.

(** ** From the backend to the screen *)

Lemma transformed_keys (rows : list JsVal) (items : list DemoWithComponent) :
  Forall (fun r => printable (Js.prop r "updated_at") = true) rows ->
  mapR transformDemoData rows = Ok items ->
  Forall (fun d => key_printable d = true) items.
Proof.
  intros Hk Hm. apply mapR_ok_iff in Hm.
  induction Hm as [|r d rows items Hrd _ IH]; [constructor|].
  inversion Hk; subst. constructor; [|auto].
  destruct (transformDemoData_fields r d Hrd) as (_ & _ & _ & _ & _ & Hu).
  unfold key_printable. now rewrite Hu.
Qed.

(** X17. The components tab, end to end, with no search text: when the
    backend answers the tab's call without error with rows that all
    have an [id] and an [updated_at] that convert to a string, the query
    gets one item per row, and the component, given that data with
    loading over, shows one card for each row whose
    [component_user_data] has the requested user as [id], in the order
    of the rows; when there is no such row it shows the skeleton
    placeholders. *)
Theorem components_tab_end_to_end (props : UserItemsListProps) (b : Backend) (h : Heap)
    (rows : list JsVal) (err : JsVal)
    (liked dem : QueryResult (JsArray DemoWithComponent)) :
  tab props = tab_components ->
  b (Rpc "get_user_profile_demos" (rpc_args (userId props)))
    = Ok {| resp_data := JArr rows; resp_error := err |} ->
  Js.truthy err = false ->
  Forall (fun r => row_id_converts r = true) rows ->
  Forall (fun r => printable (Js.prop r "updated_at") = true) rows ->
  exists a kept cards h',
    settled_state b (publishedQuery_options props) h = Success a /\
    length (aitems a) = length rows /\
    mapR transformDemoData (List.filter (row_keeps_b tab_components (userId props)) rows)
      = Ok kept /\
    mapR card_of kept = Ok cards /\
    map demo cards = kept /\
    UserItemsList props [] {| data := Some a; isLoading := false |} liked dem (S h)
    = Ok (Grid (className props)
            (match kept with
             | [] => Skeletons (default 12%nat (skeletonCount props))
             | _ => Cards cards
             end), h').
Proof.
  intros Ht Hb He Hrows Hkeys.
  destruct (mapR_transform_ok rows Hrows) as [items Hi].
  pose proof (transformed_keys rows items Hkeys Hi) as Hik.
  destruct (cards_ok (List.filter (ownership_keeps_b tab_components (userId props)) items)
              (Forall_filter_keeps _ _ _ Hik)) as (cards & Hcards & Hdemos).
  exists (MkArray h items),
         (List.filter (ownership_keeps_b tab_components (userId props)) items), cards.
  assert (Hs : settled_state b (publishedQuery_options props) h = Success (MkArray h items)).
  { unfold publishedQuery_options, settled_state. rewrite Ht.
    rewrite (mount_fetcher PublishedDemos). simpl. rewrite Hb. simpl.
    now rewrite He, Hi. }
  destruct (components_items props [] {| data := Some (MkArray h items); isLoading := false |}
              liked dem (S h) (or_introl eq_refl)) as (cs & h' & Hc & Hcs).
  exists h'. split; [exact Hs|]. split.
  { simpl. apply mapR_ok_iff in Hi. symmetry. now apply (Forall2_length _ _ _ Hi). }
  split; [apply mapR_ok_iff, kept_rows_kept_items; now apply mapR_ok_iff|].
  split; [exact Hcards|]. split; [exact Hdemos|].
  rewrite (UserItemsList_after_memo _ _ _ _ _ _ _ _ Hc).
  unfold tab_items, tab_data, search_items in Hcs. rewrite Ht in Hcs. simpl in Hcs.
  unfold showSkeleton, showEmptyState, no_length, isLoading_memo.
  rewrite Ht, Hcs. simpl. rewrite Hcards.
  now destruct (List.filter _ items).
Qed.

End Program.

(** * Instances on sample data *)

(** C2 on the sample items: the query "BUTTON" keeps the item named
    "Fancy Button" and the one whose preview is "/p/button.png", in
    that order, and these are the items with a field containing the
    query up to case. *)
Lemma filterComponentsBySearch_witness :
  filterComponentsBySearch test_engine (Some (MkArray 0 [demo_a; demo_b; demo_c]))
    (Str.lit "BUTTON") 1%nat
    = Ok (Some (MkArray 1 [demo_a; demo_c]), 2%nat) /\
  search_as_claimed (Str.lit "BUTTON") [demo_a; demo_b; demo_c] [demo_a; demo_c] /\
  filterComponentsBySearch test_engine (Some (MkArray 0 [demo_a; demo_b; demo_c]))
    (Str.lit "zzz") 1%nat
    = Ok (Some (MkArray 1 []), 2%nat).
Proof.
  destruct (proj2 (filterComponentsBySearch_spec test_engine)
              (MkArray 0 [demo_a; demo_b; demo_c]) (Str.lit "BUTTON") 1%nat
              ltac:(discriminate) ltac:(repeat constructor)) as (H1 & _ & _ & H4).
  destruct (proj2 (filterComponentsBySearch_spec test_engine)
              (MkArray 0 [demo_a; demo_b; demo_c]) (Str.lit "zzz") 1%nat
              ltac:(discriminate) ltac:(repeat constructor)) as (H5 & _).
  split; [exact H1|]. split; [|exact H5].
  apply (H4 eq_refl). repeat constructor.
Defined.

(** C2, as the claim words it, fails: the item is named [AΣB], the
    query [AΣ] is a substring of that name as it stands, and the filter
    returns no item, because the capital sigma that ends the query
    lower-cases to the final sigma and the one inside the name to the
    small sigma. *)
Lemma final_sigma_query_misses :
  Demo.name demo_sigma = JStr (query_sigma ++ [66%N]) /\
  contains_ignoring_case (query_sigma ++ [66%N]) query_sigma /\
  (forall E : Engine,
      Str.toLowerCase E query_sigma = [97%N; Str.final_sigma] /\
      Str.toLowerCase E (query_sigma ++ [66%N]) = [97%N; Str.small_sigma; 98%N] /\
      filterComponentsBySearch E (Some (MkArray 0 [demo_sigma])) query_sigma 1%nat
        = Ok (Some (MkArray 1 []), 2%nat)) /\
  ~ search_as_claimed query_sigma [demo_sigma] [].
Proof.
  split; [reflexivity|].
  assert (Hc : contains_ignoring_case (query_sigma ++ [66%N]) query_sigma).
  { exists [], query_sigma, [66%N]. split; [reflexivity|].
    repeat constructor. }
  split; [exact Hc|]. split; [intros E; repeat split|].
  intros H. apply (proj2 (H demo_sigma)).
  split; [now left|]. left. exists (query_sigma ++ [66%N]). split; [reflexivity | exact Hc].
Qed.

(** C3 on the sample items, for the user [u1]: the components tab
    keeps the two items whose component [u1] owns, the demos tab the one
    [u1] authored on a component of [u2], the bookmarks tab all three. *)
Lemma ownership_filter_witness :
  ownership_filter components_props (MkArray 0 [demo_a; demo_b; demo_c]) 1%nat
    = Ok (MkArray 1 [demo_a; demo_c], 2%nat) /\
  ownership_filter demos_props (MkArray 0 [demo_a; demo_b; demo_c]) 1%nat
    = Ok (MkArray 1 [demo_b], 2%nat) /\
  ownership_filter bookmarks_props (MkArray 0 [demo_a; demo_b; demo_c]) 1%nat
    = Ok (MkArray 0 [demo_a; demo_b; demo_c], 1%nat) /\
  (In demo_b [demo_a; demo_c] <->
   ({[ "id" := JStr (Str.lit "u2") ]} : gmap string JsVal) !! "id"
   = Some (JStr (Str.lit "u1"))).
Proof.
  destruct (proj1 (proj2 (ownership_filter_spec test_engine components_props
              (MkArray 0 [demo_a; demo_b; demo_c]) 1%nat)) eq_refl)
    as (kept & Ho & Hk & _ & Hobj & _).
  destruct (proj1 (proj2 (proj2 (ownership_filter_spec test_engine demos_props
              (MkArray 0 [demo_a; demo_b; demo_c]) 1%nat))) eq_refl)
    as (kept' & Ho' & Hk' & _).
  split; [rewrite Ho, Hk; reflexivity|].
  split; [rewrite Ho', Hk'; reflexivity|].
  split.
  - exact (proj2 (proj2 (proj2 (ownership_filter_spec test_engine bookmarks_props
             (MkArray 0 [demo_a; demo_b; demo_c]) 1%nat))) eq_refl).
  - rewrite Hk in Hobj.
    exact (Hobj demo_b _ _ (or_intror (or_introl eq_refl)) eq_refl eq_refl).
Defined.



Lemma empty_bookmarks_panel_witness :
  exists cs h',
    components test_engine bookmarks_props [] no_data no_data no_data 3%nat = Ok (cs, h') /\
    aitems cs = tab_items bookmarks_props no_data no_data no_data /\
    (length (aitems cs) = 0%nat ->
     UserItemsList test_engine bookmarks_props [] no_data no_data no_data 3%nat
       = Ok (EmptyLikedState, h') /\
     shows_skeleton EmptyLikedState = false /\
     shows_no_results EmptyLikedState = false).
Proof.
  apply (empty_bookmarks_panel test_engine bookmarks_props no_data no_data no_data 3%nat);
    reflexivity.
Defined.

Lemma tab_queries_all_fetch_witness :
  components test_engine components_props [] (loaded (MkArray 0 [demo_a])) no_data no_data
    = components test_engine components_props []
        (loaded (MkArray 0 [demo_a])) (loaded (MkArray 1 [demo_b])) (loaded (MkArray 2 [demo_c])) /\
  isLoading_memo components_props (loaded (MkArray 0 [demo_a])) no_data no_data
    = isLoading_memo components_props
        (loaded (MkArray 0 [demo_a])) (loaded (MkArray 1 [demo_b])) (loaded (MkArray 2 [demo_c])) /\
  UserItemsList test_engine components_props [] (loaded (MkArray 0 [demo_a])) no_data no_data
    = UserItemsList test_engine components_props []
        (loaded (MkArray 0 [demo_a])) (loaded (MkArray 1 [demo_b])) (loaded (MkArray 2 [demo_c])).
Proof.
  apply (proj2 (proj2 (proj2 (proj2 (proj2
           (tab_queries_all_fetch test_engine components_props empty_backend 0%nat)))))).
  reflexivity.
Defined.

(** C1, as the claim words it, fails: on the components tab all three
    queries are enabled, not one; the fetcher of liked components, given
    the empty string, sends its call; and against a backend that answers
    with no rows its query has data, the empty collection. *)
Lemma inactive_queries_fetch :
  requests_on_mount empty_backend (likedQuery_options test_engine components_props) 0%nat
    = [Rpc "get_user_liked_components" (rpc_args [])] /\
  data_of (settled_state empty_backend (likedQuery_options test_engine components_props) 0%nat)
    = Some (MkArray 0%nat []) /\
  ~ exactly_one_enabled test_engine components_props /\
  ~ empty_id_sends_nothing test_engine empty_backend 0%nat.
Proof.
  split; [reflexivity|]. split; [reflexivity|]. split.
  - unfold exactly_one_enabled. simpl. discriminate.
  - intros [H _]. discriminate H.
Qed.

Lemma useIsAdmin_spec_witness :
  (is_enabled (useIsAdmin_query JNull) = false /\
   requests_on_mount admin_backend (useIsAdmin_query JNull) 0%nat = [] /\
   settled_state admin_backend (useIsAdmin_query JNull) 0%nat = Pending /\
   useIsAdmin (settled_state admin_backend (useIsAdmin_query JNull) 0%nat) = JBool false /\
   run admin_backend (queryFn (useIsAdmin_query JNull)) 0%nat = ([], Ok (JBool false, 0%nat))) /\
  (requests_on_mount admin_backend (useIsAdmin_query (signed_in "u1")) 0%nat
     = [admin_lookup (signed_in "u1")] /\
   useIsAdmin (settled_state admin_backend (useIsAdmin_query (signed_in "u1")) 0%nat)
     = JBool true).
Proof.
  split.
  - apply (proj1 (proj2 (useIsAdmin_spec admin_backend JNull 0%nat))). reflexivity.
  - apply (proj2 (proj2 (proj2 (useIsAdmin_spec admin_backend (signed_in "u1") 0%nat)))
             (JObj {[ "is_admin" := JBool true ]}) JNull); vm_compute; reflexivity.
Defined.

Lemma useIsAdmin_degrades_witness :
  (settled_state failing_backend (useIsAdmin_query (signed_in "u1")) 0%nat
     = Failed (Thrown (JStr (Str.lit "Failed to fetch"))) /\
   useIsAdmin (settled_state failing_backend (useIsAdmin_query (signed_in "u1")) 0%nat)
     = JBool false) /\
  (settled_state admin_backend (useIsAdmin_query (signed_in "u2")) 0%nat
     = Success (JBool false) /\
   useIsAdmin (settled_state admin_backend (useIsAdmin_query (signed_in "u2")) 0%nat)
     = JBool false).
Proof.
  split.
  - apply (proj1 (useIsAdmin_degrades failing_backend (signed_in "u1") 0%nat eq_refl)).
    reflexivity.
  - apply (proj1 (proj2 (useIsAdmin_degrades admin_backend (signed_in "u2") 0%nat eq_refl))
             {| resp_data := JNull;
                resp_error := JObj {[ "code" := JStr (Str.lit "PGRST116") ]} |});
      reflexivity.
Defined.

(** C8 on sample texts: the hotkey with "a b/c" pushes
    ["/q/a%20b%2Fc"]; with a high surrogate alone it pushes nothing and
    the handler throws. *)
Lemma handleGlobalSearch_spec_witness :
  navigations (fst (on_trigger ModEnter (Str.lit "a b/c"))) = [Str.lit "/q/a%20b%2Fc"] /\
  snd (on_trigger ModEnter (Str.lit "a b/c")) = None /\
  navigations (fst (on_trigger ModEnter lone_surrogate)) = [] /\
  snd (on_trigger ModEnter lone_surrogate) = Some URIError.
Proof.
  destruct (proj1 (proj2 (handleGlobalSearch_spec ModEnter (Str.lit "a b/c")))
              ltac:(discriminate) eq_refl) as (encoded & _ & Hn & Hs & Hu & _).
  split; [rewrite Hn, (Hu eq_refl); reflexivity|]. split; [exact Hs|].
  exact (proj1 (proj2 (proj2 (handleGlobalSearch_spec ModEnter lone_surrogate))) eq_refl).
Defined.

(** C8, as the claim words it, fails: the search text is not empty, a
    high surrogate without its partner; on either trigger
    [encodeURIComponent] throws a [URIError] and no route is pushed. *)
Lemma lone_surrogate_pushes_nothing :
  Str.is_empty lone_surrogate = false /\
  Str.encodeURIComponent lone_surrogate = Err URIError /\
  on_trigger SearchEverywhereClick lone_surrogate = ([], Some URIError) /\
  on_trigger ModEnter lone_surrogate = ([PreventDefault], Some URIError) /\
  navigations (fst (on_trigger SearchEverywhereClick lone_surrogate)) = [] /\
  navigations (fst (on_trigger ModEnter lone_surrogate)) = [].
Proof. repeat split; reflexivity. Qed.

Lemma profile_demos_fetchers_agree_witness :
  search_filtered test_engine components_props (Str.lit "button")
    (loaded (MkArray 0 [demo_a; demo_b])) no_data no_data
  = search_filtered test_engine demos_props (Str.lit "button")
    no_data no_data (loaded (MkArray 0 [demo_a; demo_b])).
Proof.
  apply (proj2 (proj2 (proj2 (proj2 (proj2 (proj2 (proj2
           (profile_demos_fetchers_agree test_engine (Str.lit "u1")))))))) None None None None
           (Str.lit "button") (Some (MkArray 0 [demo_a; demo_b])));
    reflexivity.
Defined.

(** C10 on sample rows: the row with [id] 1 gives the item with [id]
    "1"; the row whose [id] is an object with a [toString] entry of its
    own throws. *)
Lemma transformDemoData_total_witness :
  (exists d,
     transformDemoData test_engine (sample_row 1 "Fancy Button" "/p/1.png" "u1" "u1") = Ok d /\
     Demo.id d = Str.lit "1" /\ Demo.tags d = [] /\ Demo.view_count d = JNum 0) /\
  transformDemoData test_engine row_odd_id = Err TypeError.
Proof.
  split.
  - destruct (proj2 (proj2 (transformDemoData_total test_engine
                (sample_row 1 "Fancy Button" "/p/1.png" "u1" "u1")))
                eq_refl eq_refl eq_refl)
      as (d & Hd & _ & _ & Hn & _ & _ & Hv & Ht & _).
    exists d. split; [exact Hd|]. split; [|split; [exact Ht | exact Hv]].
    apply (Hn 1%Z); [reflexivity|]. reflexivity.
  - exact (proj1 (proj2 (transformDemoData_total test_engine row_odd_id)) eq_refl).
Defined.

(** C10, as the claim words it, fails: the row is an object and its
    [id] is neither [null] nor [undefined], an object with a [toString]
    entry that is a number; [data.id.toString()] throws a [TypeError]. *)
Lemma non_null_id_faults :
  Js.nullish row_odd_id = false /\
  Js.nullish (Js.prop row_odd_id "id") = false /\
  Js.prop row_odd_id "id" = JObj {[ "toString" := JNum 1 ]} /\
  (forall E : Engine, transformDemoData E row_odd_id = Err TypeError).
Proof. repeat split. Qed.

Lemma fetch_error_wins_witness :
  settled_state
    (demos_backend {| resp_data := JArr two_rows;
                      resp_error := JStr (Str.lit "permission denied") |})
    (fetcher_options test_engine ProfileDemos (Str.lit "u1")) 0%nat
  = Failed (Thrown (JStr (Str.lit "permission denied"))) /\
  settled_state failing_backend (fetcher_options test_engine LikedComponents (Str.lit "u1")) 0%nat
  = Failed (Thrown (JStr (Str.lit "Failed to fetch"))).
Proof.
  split.
  - apply (proj1 (fetch_error_wins test_engine ProfileDemos (Str.lit "u1")
      (demos_backend {| resp_data := JArr two_rows;
                        resp_error := JStr (Str.lit "permission denied") |})
      0%nat) {| resp_data := JArr two_rows;
                resp_error := JStr (Str.lit "permission denied") |});
      reflexivity.
  - apply (proj2 (fetch_error_wins test_engine LikedComponents (Str.lit "u1")
                    failing_backend 0%nat)).
    reflexivity.
Defined.

Lemma fetch_success_iff_witness :
  (exists a,
     settled_state (demos_backend {| resp_data := JArr two_rows; resp_error := JNull |})
       (fetcher_options test_engine PublishedDemos (Str.lit "u1")) 5%nat = Success a) /\
  settled_state
    (demos_backend {| resp_data := JArr (two_rows ++ [row_odd_id])%list;
                      resp_error := JNull |})
    (fetcher_options test_engine PublishedDemos (Str.lit "u1")) 5%nat
  = Failed TypeError.
Proof.
  split.
  - apply (proj2 (proj1 (fetch_success_iff test_engine PublishedDemos (Str.lit "u1")
             (demos_backend {| resp_data := JArr two_rows; resp_error := JNull |}) 5%nat))).
    exists {| resp_data := JArr two_rows; resp_error := JNull |}, two_rows.
    repeat split; repeat constructor.
  - apply (proj1 (proj2 (proj2 (fetch_success_iff test_engine PublishedDemos (Str.lit "u1")
             (demos_backend {| resp_data := JArr (two_rows ++ [row_odd_id])%list;
                               resp_error := JNull |}) 5%nat)))
             {| resp_data := JArr (two_rows ++ [row_odd_id])%list; resp_error := JNull |}
             (two_rows ++ [row_odd_id])%list eq_refl eq_refl eq_refl).
    apply Exists_cons_tl, Exists_cons_tl, Exists_cons_hd. reflexivity.
Defined.

Lemma transformed_owner_ids_witness :
  component_creator_id demo_a
    = Js.opt_member (Js.prop (sample_row 1 "Fancy Button" "/p/1.png" "u1" "u1")
                       "component_user_data") "id" /\
  demo_author_id demo_a
    = Js.opt_member (Js.prop (sample_row 1 "Fancy Button" "/p/1.png" "u1" "u1")
                       "user_data") "id".
Proof.
  destruct (transformed_owner_ids test_engine
              (sample_row 1 "Fancy Button" "/p/1.png" "u1" "u1")
              demo_a eq_refl) as (H1 & H2 & _).
  split; [exact H1 | exact H2].
Defined.

Lemma typed_rows_search_total_witness :
  Forall (fun d => text_fields_typed d = true) [demo_a; demo_b] /\
  exists r h',
    filterComponentsBySearch test_engine (Some (MkArray 0 [demo_a; demo_b]))
      (Str.lit "card") 1%nat = Ok (Some r, h') /\
    aitems r = search_items test_engine (Str.lit "card") [demo_a; demo_b].
Proof.
  apply (typed_rows_search_total test_engine two_rows [demo_a; demo_b] 0
           (Str.lit "card") 1%nat).
  - repeat constructor.
  - vm_compute. reflexivity.
Defined.

Lemma ownership_filter_on_rows_witness :
  mapR (transformDemoData test_engine)
    (List.filter (row_keeps_b tab_demos (Str.lit "u1")) two_rows)
  = Ok (List.filter (ownership_keeps_b tab_demos (Str.lit "u1")) [demo_a; demo_b]).
Proof.
  apply (ownership_filter_on_rows test_engine tab_demos (Str.lit "u1") two_rows
           [demo_a; demo_b]).
  vm_compute. reflexivity.
Defined.

Lemma tabs_split_authored_witness :
  exists r1 r2,
    ownership_filter (with_tab tab_components components_props)
      (MkArray 0 [demo_a; demo_b; demo_c]) 1%nat = Ok (r1, 2%nat) /\
    ownership_filter (with_tab tab_demos components_props)
      (MkArray 0 [demo_a; demo_b; demo_c]) 1%nat = Ok (r2, 2%nat) /\
    (forall d, In d (aitems r1) -> In d (aitems r2) -> False) /\
    (forall d, In d [demo_a; demo_b; demo_c] -> demo_author_id d = JStr (Str.lit "u1") ->
               In d (aitems r1) \/ In d (aitems r2)) /\
    (forall d, In d (aitems r2) -> demo_author_id d = JStr (Str.lit "u1")).
Proof.
  exact (tabs_split_authored components_props (MkArray 0 [demo_a; demo_b; demo_c])
           1%nat 1%nat).
Defined.


Lemma longer_query_narrows_witness :
  exists r r' h1 h2,
    filterComponentsBySearch test_engine (Some (MkArray 0 [demo_a; demo_b; demo_c]))
      (Str.lit "but") 1%nat = Ok (Some r, h1) /\
    filterComponentsBySearch test_engine (Some (MkArray 0 [demo_a; demo_b; demo_c]))
      (Str.lit "fancy " ++ Str.lit "but" ++ Str.lit "ton") 1%nat = Ok (Some r', h2) /\
    (forall d, In d (aitems r') -> In d (aitems r)).
Proof.
  apply (longer_query_narrows test_engine (MkArray 0 [demo_a; demo_b; demo_c])
           (Str.lit "but") (Str.lit "fancy ") (Str.lit "ton") 1%nat).
  - repeat constructor.
  - reflexivity.
Defined.

Lemma search_result_stable_witness :
  exists r h1,
    filterComponentsBySearch test_engine (Some (MkArray 0 [demo_a; demo_b; demo_c]))
      (Str.lit "button") 1%nat = Ok (Some r, h1) /\
    sublist (aitems r) [demo_a; demo_b; demo_c] /\
    (length (aitems r) <= 3)%nat /\
    exists r2 h2,
      filterComponentsBySearch test_engine (Some r) (Str.lit "button") h1
        = Ok (Some r2, h2) /\
      aitems r2 = aitems r.
Proof.
  apply (search_result_stable test_engine (MkArray 0 [demo_a; demo_b; demo_c])
           (Str.lit "button") 1%nat).
  repeat constructor.
Defined.


Lemma skeletons_when_nothing_kept_witness :
  exists h',
    UserItemsList test_engine demos_props [] no_data no_data
      (loaded (MkArray 0 [demo_a; demo_c])) 1%nat
    = Ok (Grid None (Skeletons 12), h').
Proof.
  apply (skeletons_when_nothing_kept test_engine demos_props no_data no_data
           (loaded (MkArray 0 [demo_a; demo_c])) 1%nat).
  - discriminate.
  - intros d [<-|[<-|[]]]; reflexivity.
Defined.

Lemma memo_dependencies_witness :
  components test_engine components_props (Str.lit "x")
    (loaded (MkArray 0 [demo_a])) no_data no_data
  = components test_engine
      {| className := Some "wide"; skeletonCount := Some 3%nat;
         userId := Str.lit "u1"; tab := tab_components |}
      (Str.lit "x") {| data := Some (MkArray 0 [demo_a]); isLoading := true |} no_data no_data.
Proof.
  apply (proj1 (memo_dependencies test_engine components_props
           {| className := Some "wide"; skeletonCount := Some 3%nat;
              userId := Str.lit "u1"; tab := tab_components |}
           (Str.lit "x") (loaded (MkArray 0 [demo_a])) no_data no_data
           {| data := Some (MkArray 0 [demo_a]); isLoading := true |} no_data no_data
           eq_refl)); reflexivity.
Defined.

Lemma query_keys_separate_witness :
  (LikedComponents = LikedComponents /\ Str.lit "u1" = Str.lit "u1") /\
  Js.opt_member (signed_in "u1") "id" = Js.opt_member (signed_in "u1") "id".
Proof.
  split.
  - apply (proj1 (query_keys_separate test_engine LikedComponents LikedComponents
                    (Str.lit "u1") (Str.lit "u1") JNull JNull)). reflexivity.
  - apply (proj2 (proj2 (query_keys_separate test_engine LikedComponents LikedComponents
                            (Str.lit "u1") (Str.lit "u1")
                            (signed_in "u1") (signed_in "u1")))). reflexivity.
Defined.

Lemma useIsAdmin_raw_flag_witness :
  useIsAdmin (settled_state odd_backend (useIsAdmin_query (signed_in "u1")) 0%nat)
  = Js.opt_member (JObj {[ "is_admin" := JStr (Str.lit "yes") ]}) "is_admin".
Proof.
  apply (proj1 (useIsAdmin_raw_flag odd_backend (signed_in "u1") 0%nat
           {| resp_data := JObj {[ "is_admin" := JStr (Str.lit "yes") ]};
              resp_error := JStr (Str.lit "stale") |}
           eq_refl eq_refl)).
  reflexivity.
Defined.

Lemma pushed_route_is_one_segment_witness :
  exists tail,
    Str.lit "/q/a%2Fb%3Fc" = Str.lit "/q/" ++ tail /\
    Forall (fun c => Str.uri_unreserved c = true \/ c = 37%N) tail /\
    Forall (fun c => path_delimiter c = false) tail.
Proof.
  apply (pushed_route_is_one_segment ModEnter (Str.lit "a/b?c") (Str.lit "/q/a%2Fb%3Fc")).
  right. left. reflexivity.
Defined.

Lemma route_determines_search_witness :
  Str.lit "a b/c" = Str.lit "a b/c" /\
  exists r, Str.encodeURIComponent (Str.lit "a b/c") = Ok r /\ unescape r = Str.lit "a b/c".
Proof.
  apply (route_determines_search SearchEverywhereClick (Str.lit "a b/c") (Str.lit "a b/c"));
    reflexivity.
Defined.

Lemma components_tab_end_to_end_witness :
  exists a kept cards h',
    settled_state (demos_backend {| resp_data := JArr two_rows; resp_error := JNull |})
      (publishedQuery_options test_engine components_props) 0%nat = Success a /\
    length (aitems a) = length two_rows /\
    mapR (transformDemoData test_engine)
      (List.filter (row_keeps_b tab_components (Str.lit "u1")) two_rows) = Ok kept /\
    mapR (card_of test_engine) kept = Ok cards /\
    map demo cards = kept /\
    UserItemsList test_engine components_props [] {| data := Some a; isLoading := false |}
      no_data no_data 1%nat
    = Ok (Grid None
            (match kept with
             | [] => Skeletons 12
             | _ => Cards cards
             end), h').
Proof.
  apply (components_tab_end_to_end test_engine components_props
           (demos_backend {| resp_data := JArr two_rows; resp_error := JNull |}) 0%nat
           two_rows JNull no_data no_data);
    [reflexivity | reflexivity | reflexivity | repeat constructor | repeat constructor].
Defined.
